(** * teleconf: the load / prompt / validate / persist workflow of [Config]

    A shallow embedding of [teleconf/__init__.py].  The constructor
    [Config.__init__] and its four private getters are written in a small
    monad that threads the object under construction ([self]) and the world
    it touches: the configuration file, the lines the user types and what
    appears on the terminal.

    Modelling choices, fixed here once:
    - Python [str] is [string]; every [ascii] stands for the code point with
      the same number, so the text that can be typed is the range
      U+0000..U+00FF.  The character classes of [str.isspace], [str.isdigit]
      and the regular expression class [\d] are the ones of CPython on that
      range.
    - The configuration file is described by what [open] and [json.load]
      make of it: one of the exceptions they raise, or a value, and
      [json.dump] stores a value that [json.load] gives back.
    - [session.prompt] reads the keys of the user one entry after the other:
      a submitted line, Ctrl-C, or Ctrl-D on an empty line.  When the user
      has typed nothing more, the call is still waiting ([Blocked]).  The
      history file of the prompt session takes no part in any result and is
      left out. *)

From Stdlib Require Import ZArith String Ascii List Bool.
From Stdlib Require Import SpecFloat.
From stdpp Require Import base gmap strings list.
Set Warnings "-register-all".

Local Open Scope Z_scope.

(** ** Text: the [str] methods the source calls *)

Module Text.

Definition code (c : ascii) : Z := Z.of_N (N_of_ascii c).

Definition between (lo hi n : Z) : bool := (lo <=? n) && (n <=? hi).

(** [str.isspace] on one character: TAB..CR, FS..US, SPACE, NEL, NBSP. *)
Definition isspace_char (c : ascii) : bool :=
  let n := code c in
  between 9 13 n || between 28 32 n || (n =? 133) || (n =? 160).

(** Characters of Unicode category Nd (what [int] and [\d] read): 0..9. *)
Definition isdecimal_char (c : ascii) : bool := between 48 57 (code c).

(** [str.isdigit] on one character: Nd, and the superscripts 2, 3 and 1
    (U+00B2, U+00B3, U+00B9), which are digits without a decimal value. *)
Definition isdigit_char (c : ascii) : bool :=
  let n := code c in
  isdecimal_char c || (n =? 178) || (n =? 179) || (n =? 185).

Fixpoint all_chars (p : ascii -> bool) (s : string) : bool :=
  match s with
  | EmptyString => true
  | String c r => p c && all_chars p r
  end.

(** [t.isdigit()]: every character is a digit and there is at least one. *)
Definition isdigit (t : string) : bool :=
  match t with
  | EmptyString => false
  | _ => all_chars isdigit_char t
  end.

Fixpoint lstrip (s : string) : string :=
  match s with
  | String c r => if isspace_char c then lstrip r else s
  | EmptyString => EmptyString
  end.

Fixpoint rstrip (s : string) : string :=
  match s with
  | EmptyString => EmptyString
  | String c r =>
      match rstrip r with
      | EmptyString => if isspace_char c then EmptyString else String c EmptyString
      | r' => String c r'
      end
  end.

(** [t.strip()] *)
Definition strip (t : string) : string := rstrip (lstrip t).

(** [bool(t)] of a string *)
Definition nonempty (t : string) : bool :=
  match t with EmptyString => false | _ => true end.

(** [sub in s] for two strings *)
Fixpoint contains (sub s : string) : bool :=
  String.prefix sub s ||
  match s with
  | EmptyString => false
  | String _ r => contains sub r
  end.

(** The digits of an [int] literal in base ten: groups of decimal digits
    with single underscores between them. *)
Fixpoint digits_value (acc : Z) (after_digit : bool) (s : string) : option Z :=
  match s with
  | EmptyString => if after_digit then Some acc else None
  | String c r =>
      if Ascii.eqb c "_" then
        if after_digit then digits_value acc false r else None
      else if isdecimal_char c then digits_value (10 * acc + (code c - 48)) true r
      else None
  end.

(** The number of digits of a literal; underscores do not count. *)
Fixpoint digit_count (s : string) : Z :=
  match s with
  | EmptyString => 0
  | String c r => (if isdecimal_char c then 1 else 0) + digit_count r
  end.

(** [sys.get_int_max_str_digits()], as CPython sets it. *)
Definition max_str_digits : Z := 4300.

(** The digits of [int(s)] after the sign: more than [max_str_digits] of
    them are refused. *)
Definition limited_value (r : string) : option Z :=
  if digit_count r <=? max_str_digits then digits_value 0 false r else None.

(** [int(s)]: surrounding white space, an optional sign, the digits.
    [None] stands for [ValueError]. *)
Definition int (s : string) : option Z :=
  match strip s with
  | String "+" r => limited_value r
  | String "-" r => Z.opp <$> limited_value r
  | r => limited_value r
  end.

Fixpoint span_decimal (s : string) : nat * string :=
  match s with
  | String c r =>
      if isdecimal_char c then let '(k, rest) := span_decimal r in (S k, rest)
      else (O, s)
  | EmptyString => (O, EmptyString)
  end.

(** [$] without [re.MULTILINE]: the end of the text, or just before a
    line feed that ends it. *)
Definition at_end (s : string) : bool :=
  match s with
  | EmptyString => true
  | String c EmptyString => code c =? 10
  | _ => false
  end.

(** [re.match(r"^\+?[1-9]\d{6,14}$", s)]: an optional plus, one of 1..9,
    then the longest run of decimal digits, which has to be 6 to 14 long
    and reach the end. *)
Definition phone_tail (s : string) : bool :=
  match s with
  | String c r =>
      between 49 57 (code c) &&
      (let '(k, rest) := span_decimal r in
       (6 <=? k)%nat && (k <=? 14)%nat && at_end rest)
  | EmptyString => false
  end.

Definition match_phone (s : string) : bool :=
  match s with
  | String "+" r => phone_tail r
  | _ => phone_tail s
  end.

End Text.

(** ** Values, exceptions and the world *)

(** The values [json.load] produces; a [dict] has string keys. *)
Inductive pyval : Type :=
| PNone
| PBool (b : bool)
| PInt (n : Z)
| PFloat (x : spec_float)
| PStr (s : string)
| PList (l : list pyval)
| PDict (d : gmap string pyval).

Inductive exn : Type :=
| JSONDecodeError
| KeyboardInterrupt
| AttributeError (name : string)
| TypeError
| KeyError (key : string)
| ValueError
| EOFError
| UnicodeDecodeError
| OSError
| RecursionError.

(** How a call ends: it returns, it raises, the process exits through
    [sys.exit], or it is still waiting for the user. *)
Inductive outcome (A : Type) : Type :=
| Return (a : A)
| Raise (e : exn)
| Exit (status : Z)
| Blocked.
Arguments Return {A} a.
Arguments Raise {A} e.
Arguments Exit {A} status.
Arguments Blocked {A}.

(** What [open] and [json.load] make of a file that exists: the text is
    not JSON; the bytes are not UTF-8; a number of the text has more digits
    than [int] takes; the file cannot be opened for reading; the text is
    nested too deeply; or the text is JSON for the value [v]. *)
Inductive content : Type :=
| NotJson
| NotUtf8
| HugeNumber
| Unreadable
| TooDeep
| Json (v : pyval).

(** One entry of the user at the prompt: a submitted line, Ctrl-C, or
    Ctrl-D on an empty line. *)
Inductive key : Type :=
| Line (text : string)
| CtrlC
| CtrlD.

(** What the run does that can be observed from outside, in order. *)
Inductive event : Type :=
| Printed (text : string)
| Prompted (field : string)
| Rejected (error_message : string)
| Wrote (v : pyval).

(** The attributes of the [Config] object; [None] is an attribute that was
    never assigned. *)
Record object : Type := mkObject {
  as_dict : pyval;
  api_id : option pyval;
  api_hash : option pyval;
  bot_token : option pyval;
  phone_number : option pyval
}.

Record state : Type := mkState {
  self : object;
  config_file : option content;   (* [None]: the path does not exist *)
  stdin : list key;
  trace : list event
}.

Definition M (A : Type) : Type := state -> outcome A * state.

Definition ret {A} (a : A) : M A := fun st => (Return a, st).

Definition bind {A B} (m : M A) (k : A -> M B) : M B :=
  fun st =>
    match m st with
    | (Return a, st') => k a st'
    | (Raise e, st') => (Raise e, st')
    | (Exit c, st') => (Exit c, st')
    | (Blocked, st') => (Blocked, st')
    end.

Notation "x <- m ;; k" := (bind m (fun x => k))
  (at level 100, m at next level, right associativity).
Notation "m ;;; k" := (bind m (fun _ => k))
  (at level 100, right associativity).

Definition raise {A} (e : exn) : M A := fun st => (Raise e, st).

(** [sys.exit(status)] *)
Definition sys_exit {A} (status : Z) : M A := fun st => (Exit status, st).

(** [try: body / except <caught>: handler] *)
Definition try_except {A} (body : M A) (caught : exn -> bool) (handler : M A) : M A :=
  fun st =>
    match body st with
    | (Raise e, st') => if caught e then handler st' else (Raise e, st')
    | r => r
    end.

Definition when (b : bool) (m : M unit) : M unit := if b then m else ret tt.

Definition emit (e : event) : M unit :=
  fun st => (Return tt, mkState (self st) (config_file st) (stdin st) (trace st ++ [e])).

Definition print (text : string) : M unit := emit (Printed text).

Definition update_self (f : object -> object) : M unit :=
  fun st => (Return tt, mkState (f (self st)) (config_file st) (stdin st) (trace st)).

Definition set_as_dict (v : pyval) : M unit :=
  update_self (fun o => mkObject v (api_id o) (api_hash o) (bot_token o) (phone_number o)).
Definition set_api_id (v : pyval) : M unit :=
  update_self (fun o => mkObject (as_dict o) (Some v) (api_hash o) (bot_token o) (phone_number o)).
Definition set_api_hash (v : pyval) : M unit :=
  update_self (fun o => mkObject (as_dict o) (api_id o) (Some v) (bot_token o) (phone_number o)).
Definition set_bot_token (v : pyval) : M unit :=
  update_self (fun o => mkObject (as_dict o) (api_id o) (api_hash o) (Some v) (phone_number o)).
Definition set_phone_number (v : pyval) : M unit :=
  update_self (fun o => mkObject (as_dict o) (api_id o) (api_hash o) (bot_token o) (Some v)).

Definition get_as_dict : M pyval := fun st => (Return (as_dict (self st)), st).

(** [self.<name>] read: [AttributeError] when it was never assigned. *)
Definition getattr (name : string) (proj : object -> option pyval) : M pyval :=
  fun st =>
    match proj (self st) with
    | Some v => (Return v, st)
    | None => (Raise (AttributeError name), st)
    end.

(** [key in container], with a string on the left. *)
Definition py_contains (k : string) (container : pyval) : M bool :=
  match container with
  | PDict d => ret (bool_decide (is_Some (d !! k)))
  | PStr s => ret (Text.contains k s)
  | PList l => ret (existsb (fun v => match v with PStr s => String.eqb s k | _ => false end) l)
  | PNone | PBool _ | PInt _ | PFloat _ => raise TypeError
  end.

(** [container[key]], with a string as the subscript. *)
Definition py_getitem (container : pyval) (k : string) : M pyval :=
  match container with
  | PDict d => match d !! k with Some v => ret v | None => raise (KeyError k) end
  | _ => raise TypeError
  end.

(** [open(self.config_file, "r", encoding="utf-8")] and [json.load(f)] on
    the file as it is. *)
Definition json_load (c : content) : M pyval :=
  match c with
  | Json v => ret v
  | NotJson => raise JSONDecodeError
  | NotUtf8 => raise UnicodeDecodeError
  | HugeNumber => raise ValueError
  | Unreadable => raise OSError
  | TooDeep => raise RecursionError
  end.

(** [open("w")] followed by [json.dump(v, f, ...)]: the file now holds [v]. *)
Definition json_dump (v : pyval) : M unit :=
  fun st => (Return tt, mkState (self st) (Some (Json v)) (stdin st) (trace st ++ [Wrote v])).

(** The loop inside [session.prompt]: a line the validator refuses shows
    the error message and the prompt stays open; Ctrl-C raises
    [KeyboardInterrupt], Ctrl-D raises [EOFError]. *)
Fixpoint read_line (validator : string -> bool) (error_message : string)
    (keys : list key) (shown : list event) : outcome string * list key * list event :=
  match keys with
  | [] => (Blocked, [], shown)
  | CtrlC :: rest => (Raise KeyboardInterrupt, rest, shown)
  | CtrlD :: rest => (Raise EOFError, rest, shown)
  | Line t :: rest =>
      if validator t then (Return t, rest, shown)
      else read_line validator error_message rest (shown ++ [Rejected error_message])
  end.

(** [self.session.prompt(<label of field>, validator=Validator.from_callable(
    validator, error_message=...))] *)
Definition session_prompt (field : string) (validator : string -> bool)
    (error_message : string) : M string :=
  fun st =>
    let '(r, rest, shown) :=
      read_line validator error_message (stdin st) (trace st ++ [Prompted field]) in
    (r, mkState (self st) (config_file st) rest shown).

(** ** The source: [class Config] *)

Definition nl : string := String "010" EmptyString.

Definition tip : string :=
  nl +:+ "Tip: To obtain your API ID and API Hash, log in to your Telegram account at: https://my.telegram.org/auth?to=apps".

Definition cancel_notice : string := nl +:+ nl +:+ "Input canceled by user".

(** The four error messages; the dash of the last one is U+2013 in the
    source and appears here as the bytes of the source file. *)
Definition api_id_error : string := "Enter a numeric API ID".
Definition api_hash_error : string := "API Hash cannot be empty".
Definition bot_token_error : string := "Bot Token cannot be empty".
Definition phone_number_error : string :=
  "Phone number should contain only digits, optionally starting with a +, and be 7–15 digits long.".

Definition _get_api_id (force_update : bool) : M pyval :=
  d <- get_as_dict ;;
  present <- py_contains "api_id" d ;;
  if present && negb force_update then py_getitem d "api_id"
  else
    print tip ;;;
    api_id_text <- session_prompt "api_id" (fun t => Text.isdigit t) api_id_error ;;
    match Text.int (Text.strip api_id_text) with
    | Some n => ret (PInt n)
    | None => raise ValueError
    end.

Definition _get_api_hash (force_update : bool) : M pyval :=
  d <- get_as_dict ;;
  present <- py_contains "api_hash" d ;;
  if present && negb force_update then py_getitem d "api_hash"
  else
    print tip ;;;
    api_hash_text <- session_prompt "api_hash"
                       (fun t => Text.nonempty (Text.strip t)) api_hash_error ;;
    ret (PStr (Text.strip api_hash_text)).

Definition _get_bot_token (force_update : bool) : M pyval :=
  d <- get_as_dict ;;
  present <- py_contains "bot_token" d ;;
  if present && negb force_update then py_getitem d "bot_token"
  else
    bot_token_text <- session_prompt "bot_token"
                        (fun t => Text.nonempty (Text.strip t)) bot_token_error ;;
    ret (PStr (Text.strip bot_token_text)).

Definition _get_phone_number (force_update : bool) : M pyval :=
  d <- get_as_dict ;;
  present <- py_contains "phone_number" d ;;
  if present && negb force_update then py_getitem d "phone_number"
  else
    phone_number_text <- session_prompt "phone_number"
                           (fun t => Text.match_phone (Text.strip t)) phone_number_error ;;
    ret (PStr (Text.strip phone_number_text)).

(** Lines 132-138: load the existing file, if any. *)
Definition load : M unit :=
  fun st =>
    match config_file st with
    | None => (Return tt, st)
    | Some c =>
        try_except (v <- json_load c ;; set_as_dict v)
                   (fun e => match e with JSONDecodeError => true | _ => false end)
                   (set_as_dict (PDict ∅)) st
    end.

(** Lines 141-161: resolve the requested fields in the fixed order; Ctrl-C
    prints the notice and leaves through [sys.exit(0)]. *)
Definition resolve (request_bot_token request_api_id request_api_hash
                    request_phone_number force_update : bool) : M unit :=
  try_except
    (when request_api_id (v <- _get_api_id force_update ;; set_api_id v) ;;;
     when request_api_hash (v <- _get_api_hash force_update ;; set_api_hash v) ;;;
     when request_bot_token (v <- _get_bot_token force_update ;; set_bot_token v) ;;;
     when request_phone_number (v <- _get_phone_number force_update ;; set_phone_number v))
    (fun e => match e with KeyboardInterrupt => true | _ => false end)
    (print cancel_notice ;;; sys_exit 0).

(** The [dict] display of lines 164-168. *)
Definition record_of (a h b : pyval) : gmap string pyval :=
  <["bot_token" := b]> (<["api_hash" := h]> (<["api_id" := a]> ∅)).

(** Lines 163-170: build the record and overwrite the file with it. *)
Definition save : M unit :=
  a <- getattr "api_id" api_id ;;
  h <- getattr "api_hash" api_hash ;;
  b <- getattr "bot_token" bot_token ;;
  set_as_dict (PDict (record_of a h b)) ;;;
  d <- get_as_dict ;;
  json_dump d.

Definition __init__ (request_bot_token request_api_id request_api_hash
                     request_phone_number force_update : bool) : M unit :=
  set_as_dict (PDict ∅) ;;;
  load ;;;
  resolve request_bot_token request_api_id request_api_hash
          request_phone_number force_update ;;;
  save.

(** An object before any attribute is assigned, and a process that starts
    with a given file and a user who will type [keys]. *)
Definition blank : object := mkObject PNone None None None None.

Definition start (file : option content) (keys : list key) : state :=
  mkState blank file keys [].

(** [Config(config_file, request_bot_token=..., ...)] run as a process. *)
Definition Config (request_bot_token request_api_id request_api_hash
                   request_phone_number force_update : bool)
    (file : option content) (keys : list key) : outcome unit * state :=
  __init__ request_bot_token request_api_id request_api_hash
           request_phone_number force_update (start file keys).

(** The default arguments: only the bot token is requested. *)
Definition Config_default : option content -> list key -> outcome unit * state :=
  Config true false false false false.

(** ** The vocabulary of the properties *)

(** The fields, to state once what holds of each of the four getters. *)
Inductive field : Type := Api_id | Api_hash | Bot_token | Phone_number.

Definition key_of (f : field) : string :=
  match f with
  | Api_id => "api_id"
  | Api_hash => "api_hash"
  | Bot_token => "bot_token"
  | Phone_number => "phone_number"
  end.

Definition getter_of (f : field) : bool -> M pyval :=
  match f with
  | Api_id => _get_api_id
  | Api_hash => _get_api_hash
  | Bot_token => _get_bot_token
  | Phone_number => _get_phone_number
  end.

(** A result that is not a return, at another type. *)
Definition carry {A B} (r : outcome A) : outcome B :=
  match r with
  | Return _ => Blocked
  | Raise e => Raise e
  | Exit c => Exit c
  | Blocked => Blocked
  end.

Definition returned {A} (r : outcome A) : bool :=
  match r with Return _ => true | _ => false end.

(** [tame m]: the step leaves the file alone, writes nothing, reads a prefix
    of the keys, and a Ctrl-C among the keys it read makes it raise
    [KeyboardInterrupt]. *)
Definition tame {A} (m : M A) : Prop :=
  forall st r st', m st = (r, st') ->
    config_file st' = config_file st /\
    (exists shown, trace st' = trace st ++ shown /\ forall v, Wrote v ∉ shown) /\
    (exists used, stdin st = used ++ stdin st' /\
                  (CtrlC ∈ used -> r = Raise KeyboardInterrupt)).

(** The record in memory once the load step is over: the value of the
    file, or the empty record of line 130 when there is no file or the load
    failed. *)
Definition loaded (file : option content) : pyval :=
  match file with
  | Some (Json v) => v
  | Some NotJson | Some NotUtf8 | Some HugeNumber | Some Unreadable | Some TooDeep => PDict ∅
  | None => PDict ∅
  end.

(** The exception of the load step that line 137 does not catch, if any. *)
Definition load_exn (file : option content) : option exn :=
  match file with
  | Some NotUtf8 => Some UnicodeDecodeError
  | Some HugeNumber => Some ValueError
  | Some Unreadable => Some OSError
  | Some TooDeep => Some RecursionError
  | Some NotJson | Some (Json _) | None => None
  end.

Definition after_load (file : option content) (keys : list key) : state :=
  mkState (mkObject (loaded file) None None None None) file keys [].

(** A run up to the save step: the load step, then the resolution pass if
    the load step did not raise. *)
Definition resolve_from_file (rb ra rh rp fu : bool) (file : option content)
    (keys : list key) : outcome unit * state :=
  match load_exn file with
  | Some e => (Raise e, after_load file keys)
  | None => resolve rb ra rh rp fu (after_load file keys)
  end.

(** The save step: it needs the three attributes; with them it replaces
    [as_dict] and the file by the three-key record. *)
Definition saved (st : state) (a h b : pyval) : state :=
  mkState (mkObject (PDict (record_of a h b)) (Some a) (Some h) (Some b)
             (phone_number (self st)))
          (Some (Json (PDict (record_of a h b)))) (stdin st)
          (trace st ++ [Wrote (PDict (record_of a h b))]).

(** What precedes the prompt of a field on the terminal, and the message
    its validator shows. *)
Definition hint_of (f : field) : list event :=
  match f with
  | Api_id | Api_hash => [Printed tip]
  | Bot_token | Phone_number => []
  end.

Definition error_of (f : field) : string :=
  match f with
  | Api_id => api_id_error
  | Api_hash => api_hash_error
  | Bot_token => bot_token_error
  | Phone_number => phone_number_error
  end.

Definition same_but_file (s1 s2 : state) : Prop :=
  self s1 = self s2 /\ stdin s1 = stdin s2 /\ trace s1 = trace s2.

(** [file_blind m]: from two states that differ at most in the file, [m]
    ends the same way, in two states that differ at most in the file. *)
Definition file_blind {A} (m : M A) : Prop :=
  forall s1 s2, same_but_file s1 s2 ->
    (m s1).1 = (m s2).1 /\ same_but_file (m s1).2 (m s2).2.

(** [keeps proj m]: the attribute read by [proj] is the same after [m]. *)
Definition keeps {A} (proj : object -> option pyval) (m : M A) : Prop :=
  forall st r st', m st = (r, st') -> proj (self st') = proj (self st).

(** The state after the three saved fields were taken from the record
    [record_of a h b], before the phone number is looked at. *)
Definition reloaded (a h b : pyval) (p : option pyval) (file : option content)
    (keys : list key) (shown : list event) : state :=
  mkState (mkObject (PDict (record_of a h b)) (Some a) (Some h) (Some b) p)
          file keys shown.

(** The JSON values on which [in] with a string on the left raises. *)
Definition scalar (v : pyval) : bool :=
  match v with
  | PNone | PBool _ | PInt _ | PFloat _ => true
  | PStr _ | PList _ | PDict _ => false
  end.

(** The validator each getter hands to [session.prompt], and what the
    getter returns for the line that passed it ([None]: [int] raised). *)
Definition validator_of (f : field) : string -> bool :=
  match f with
  | Api_id => fun t => Text.isdigit t
  | Api_hash | Bot_token => fun t => Text.nonempty (Text.strip t)
  | Phone_number => fun t => Text.match_phone (Text.strip t)
  end.

Definition entered (f : field) (t : string) : option pyval :=
  match f with
  | Api_id => PInt <$> Text.int (Text.strip t)
  | Api_hash | Bot_token | Phone_number => Some (PStr (Text.strip t))
  end.

(** The part of a getter after the test for a stored value. *)
Definition ask (f : field) : M pyval :=
  match f with Api_id | Api_hash => print tip | Bot_token | Phone_number => ret tt end ;;;
  t <- session_prompt (key_of f) (validator_of f) (error_of f) ;;
  match entered f t with
  | Some v => ret v
  | None => raise ValueError
  end.

(** The fields prompted for, in the order of the prompts. *)
Definition prompts (shown : list event) : list string :=
  omap (fun e => match e with Prompted k => Some k | _ => None end) shown.

(** A phone number as the pattern describes it: an optional plus, then 7 to
    15 decimal digits of which the first is not 0. *)
Definition phone_shape (s : string) : Prop :=
  exists c body,
    (s = String c body \/ s = String "+" (String c body)) /\
    Text.between 49 57 (Text.code c) = true /\
    Text.all_chars Text.isdecimal_char body = true /\
    (6 <= String.length body <= 14)%nat.

(** [adds ks m]: the prompts [m] issues are among [ks], in that order. *)
Definition adds {A} (ks : list string) (m : M A) : Prop :=
  forall st r st', m st = (r, st') ->
    exists shown, trace st' = trace st ++ shown /\ prompts shown `sublist_of` ks.

(** The fields a run may prompt for: the requested ones, in the fixed order. *)
Definition requested (rb ra rh rp : bool) : list string :=
  (if ra then ["api_id"] else []) ++ (if rh then ["api_hash"] else []) ++
  (if rb then ["bot_token"] else []) ++ (if rp then ["phone_number"] else []).

(** [only P m]: an exception [m] raises satisfies [P], and an exit of [m]
    has status 0. *)
Definition only {A} (P : exn -> Prop) (m : M A) : Prop :=
  forall st r st', m st = (r, st') ->
    match r with
    | Raise e => P e
    | Exit c => c = 0
    | Return _ | Blocked => True
    end.

(** What a getter may raise, as far as the keys go; never [KeyError],
    since the subscript follows a membership test that succeeded. *)
Definition getter_exn (e : exn) : Prop :=
  e = TypeError \/ e = ValueError \/ e = KeyboardInterrupt \/ e = EOFError.

(** What the resolution pass lets out of these. *)
Definition resolve_exn (e : exn) : Prop :=
  e = TypeError \/ e = ValueError \/ e = EOFError.

(** ** The callers: [teleconf/examples] *)

(** [examples/pyrogram.py], up to the arguments of [Client(...)]:
    [Config(request_api_id=True, request_api_hash=True)], then
    [config.api_id], [config.api_hash] and [config.bot_token] are read. *)
Definition pyrogram_example : M (pyval * pyval * pyval) :=
  __init__ true true true false false ;;;
  a <- getattr "api_id" api_id ;;
  h <- getattr "api_hash" api_hash ;;
  b <- getattr "bot_token" bot_token ;;
  ret (a, h, b).

(** [examples/python-telegram-bot.py]: [Config(request_bot_token=True)],
    then [config.bot_token] is read. *)
Definition python_telegram_bot_example : M pyval :=
  __init__ true false false false false ;;;
  getattr "bot_token" bot_token.

(** * Properties *)

(** ** Reasoning about runs *)

Example strip_padded : Text.strip "  123abc " = "123abc"%string.
Proof. reflexivity. Qed.

Example isdigit_padded : Text.isdigit " 123 " = false.
Proof. reflexivity. Qed.

Example isdigit_empty : Text.isdigit "" = false.
Proof. reflexivity. Qed.

Example int_98765 : Text.int "98765" = Some 98765.
Proof. reflexivity. Qed.

Example phone_11_digits : Text.match_phone "15551234567" = true.
Proof. reflexivity. Qed.

Example phone_too_short : Text.match_phone "123" = false.
Proof. reflexivity. Qed.

Example scenario_api_id_reused :
  let '(r, st) := Config false true false false false
                    (Some (Json (PDict {["api_id" := PInt 12345]}))) [] in
  api_id (self st) = Some (PInt 12345) /\ trace st = [].
Proof. vm_compute. split; reflexivity. Qed.

Example scenario_api_id_retry :
  _get_api_id false (mkState (mkObject (PDict ∅) None None None None) None
                       [Line "abc"; Line "98765"] [])
  = (Return (PInt 98765),
     mkState (mkObject (PDict ∅) None None None None) None []
       [Printed tip; Prompted "api_id"; Rejected "Enter a numeric API ID"]).
Proof. vm_compute. reflexivity. Qed.

Lemma bind_inv {A B} (m : M A) (k : A -> M B) st r st' :
  bind m k st = (r, st') ->
  (exists a st1, m st = (Return a, st1) /\ k a st1 = (r, st')) \/
  (exists r0, m st = (r0, st') /\ returned r0 = false /\ r = carry r0).
Proof.
  unfold bind. destruct (m st) as [r0 st1] eqn:E.
  destruct r0; intros H.
  - left. eauto.
  - right. inversion H; subst. eauto.
  - right. inversion H; subst. eauto.
  - right. inversion H; subst. eauto.
Qed.

(** What [read_line] does with the keys: it takes a prefix of them, stops at
    the first Ctrl-C with [KeyboardInterrupt], and only adds rejections to
    what is shown. *)
Lemma read_line_spec validator msg keys shown r rest shown' :
  read_line validator msg keys shown = (r, rest, shown') ->
  (exists used, keys = used ++ rest /\ (CtrlC ∈ used -> r = Raise KeyboardInterrupt)) /\
  (exists n, shown' = shown ++ replicate n (Rejected msg)).
Proof.
  revert shown. induction keys as [|k keys IH]; intros shown H; simpl in H.
  - inversion H; subst. split.
    + exists []. split; [reflexivity|]. intros HC. inversion HC.
    + exists O. simpl. by rewrite app_nil_r.
  - destruct k as [t| |].
    + destruct (validator t).
      * inversion H; subst. split.
        -- exists [Line t]. split; [reflexivity|].
           intros HC. apply list_elem_of_singleton in HC. discriminate.
        -- exists O. simpl. by rewrite app_nil_r.
      * apply IH in H as [(used & -> & HC) (n & ->)]. split.
        -- exists (Line t :: used). split; [reflexivity|].
           intros HI. apply elem_of_cons in HI as [HI|HI]; [discriminate|auto].
        -- exists (S n). by rewrite <- app_assoc.
    + inversion H; subst. split.
      * exists [CtrlC]. split; [reflexivity|]. auto.
      * exists O. simpl. by rewrite app_nil_r.
    + inversion H; subst. split.
      * exists [CtrlD]. split; [reflexivity|].
        intros HC. apply list_elem_of_singleton in HC. discriminate.
      * exists O. simpl. by rewrite app_nil_r.
Qed.

Lemma tame_still {A} (m : M A) :
  (forall st, exists r, m st = (r, st)) -> tame m.
Proof.
  intros H st r st' E. destruct (H st) as [r0 E0].
  rewrite E0 in E. inversion E; subst. repeat split.
  - exists []. split; [by rewrite app_nil_r|]. intros v HV. inversion HV.
  - exists []. split; [reflexivity|]. intros HC. inversion HC.
Qed.

Lemma tame_ret {A} (a : A) : tame (ret a).
Proof. apply tame_still. intros st. by exists (Return a). Qed.

Lemma tame_raise {A} (e : exn) : tame (@raise A e).
Proof. apply tame_still. intros st. by exists (Raise e). Qed.

Lemma tame_get_as_dict : tame get_as_dict.
Proof. apply tame_still. intros st. by eexists. Qed.

Lemma tame_py_contains k v : tame (py_contains k v).
Proof. destruct v; simpl; auto using @tame_ret, @tame_raise. Qed.

Lemma tame_py_getitem v k : tame (py_getitem v k).
Proof.
  destruct v; simpl; auto using @tame_ret, @tame_raise.
  destruct (d !! k); auto using @tame_ret, @tame_raise.
Qed.

Lemma tame_update_self f : tame (update_self f).
Proof.
  intros st r st' E. inversion E; subst; simpl. repeat split.
  - exists []. split; [by rewrite app_nil_r|]. intros v HV. inversion HV.
  - exists []. split; [reflexivity|]. intros HC. inversion HC.
Qed.

Lemma tame_print text : tame (print text).
Proof.
  intros st r st' E. inversion E; subst; simpl. repeat split.
  - exists [Printed text]. split; [reflexivity|].
    intros v HV. apply list_elem_of_singleton in HV. discriminate.
  - exists []. split; [reflexivity|]. intros HC. inversion HC.
Qed.

Lemma tame_session_prompt fld validator msg : tame (session_prompt fld validator msg).
Proof.
  intros st r st' E. unfold session_prompt in E.
  destruct (read_line _ _ _ _) as [[r0 rest] shown'] eqn:R.
  inversion E; subst; simpl.
  apply read_line_spec in R as [(used & Hk & HC) (n & ->)]. repeat split.
  - exists (Prompted fld :: replicate n (Rejected msg)).
    split; [by rewrite <- app_assoc|].
    intros v HV. apply elem_of_cons in HV as [HV|HV]; [discriminate|].
    apply elem_of_replicate in HV as [HV _]. discriminate.
  - exists used. auto.
Qed.

Lemma tame_bind {A B} (m : M A) (k : A -> M B) :
  tame m -> (forall a, tame (k a)) -> tame (bind m k).
Proof.
  intros Hm Hk st r st' E.
  apply bind_inv in E as [(a & st1 & E1 & E2)|(r0 & E1 & Hr & ->)].
  - apply Hm in E1 as (F1 & (s1 & T1 & W1) & (u1 & I1 & C1)).
    apply Hk in E2 as (F2 & (s2 & T2 & W2) & (u2 & I2 & C2)).
    split; [congruence|]. split.
    + exists (s1 ++ s2). split; [rewrite T2, T1; by rewrite app_assoc|].
      intros v HV. apply elem_of_app in HV as [HV|HV]; [by apply (W1 v)|by apply (W2 v)].
    + exists (u1 ++ u2). split; [rewrite I1, I2; by rewrite app_assoc|].
      intros HC. apply elem_of_app in HC as [HC|HC]; [|auto].
      apply C1 in HC. discriminate.
  - apply Hm in E1 as (F1 & HT & (u1 & I1 & C1)).
    split; [done|]. split; [done|].
    exists u1. split; [done|]. intros HC. by rewrite (C1 HC).
Qed.

Lemma tame_when b m : tame m -> tame (when b m).
Proof. destruct b; simpl; auto using @tame_ret. Qed.

Create HintDb tame.
#[local] Hint Resolve tame_ret tame_raise tame_get_as_dict tame_py_contains
  tame_py_getitem tame_update_self tame_print tame_session_prompt tame_when : tame.

Ltac tame_step :=
  lazymatch goal with
  | |- tame (bind _ _) => apply tame_bind; [|intros ?]
  | |- tame (if ?b then _ else _) => destruct b
  | |- tame (match ?o with Some _ => _ | None => _ end) => destruct o
  | |- tame _ => solve [auto with tame]
  end.

Lemma tame_getter f fu : tame (getter_of f fu).
Proof.
  destruct f; simpl;
    unfold _get_api_id, _get_api_hash, _get_bot_token, _get_phone_number;
    repeat tame_step.
Qed.

Lemma load_step file keys :
  (set_as_dict (PDict ∅) ;;; load) (start file keys)
  = (match load_exn file with Some e => Raise e | None => Return tt end,
     after_load file keys).
Proof. destruct file as [[| | | | |v]|]; reflexivity. Qed.

Lemma Config_unfold rb ra rh rp fu file keys :
  load_exn file = None ->
  Config rb ra rh rp fu file keys
  = (resolve rb ra rh rp fu ;;; save) (after_load file keys).
Proof. destruct file as [[| | | | |v]|]; try discriminate; reflexivity. Qed.

Lemma Config_load_fails rb ra rh rp fu file keys e :
  load_exn file = Some e ->
  Config rb ra rh rp fu file keys = (Raise e, after_load file keys).
Proof.
  destruct file as [[| | | | |v]|]; try discriminate; intros [= <-]; reflexivity.
Qed.

Lemma tame_resolve_body rb ra rh rp fu :
  tame (when ra (v <- _get_api_id fu ;; set_api_id v) ;;;
        when rh (v <- _get_api_hash fu ;; set_api_hash v) ;;;
        when rb (v <- _get_bot_token fu ;; set_bot_token v) ;;;
        when rp (v <- _get_phone_number fu ;; set_phone_number v)).
Proof.
  pose proof (tame_getter Api_id fu). pose proof (tame_getter Api_hash fu).
  pose proof (tame_getter Bot_token fu). pose proof (tame_getter Phone_number fu).
  repeat (apply tame_bind; [|intros ?]);
    try (apply tame_when; apply tame_bind; [assumption|intros ?]);
    apply tame_update_self.
Qed.

(** The resolution pass as a whole: like a tame step, except that a Ctrl-C
    it read ends it with the notice and exit status 0. *)
Lemma resolve_spec rb ra rh rp fu st r st' :
  resolve rb ra rh rp fu st = (r, st') ->
  config_file st' = config_file st /\
  (forall v, Wrote v ∈ trace st' -> Wrote v ∈ trace st) /\
  (exists used, stdin st = used ++ stdin st' /\
     (CtrlC ∈ used ->
      r = Exit 0 /\ last (trace st') = Some (Printed cancel_notice))).
Proof.
  unfold resolve, try_except.
  destruct (bind _ _ st) as [r0 st1] eqn:E.
  apply tame_resolve_body in E as (F & (shown & T & W) & (used & I & C)).
  assert (HW : forall v, Wrote v ∈ trace st1 -> Wrote v ∈ trace st).
  { intros v HV. rewrite T in HV. apply elem_of_app in HV as [HV|HV]; [done|].
    by apply W in HV. }
  destruct r0 as [a|e|c|]; intros H.
  - inversion H; subst. repeat split; auto.
    exists used. split; [done|]. intros HC. apply C in HC. discriminate.
  - destruct e; inversion H; subst; simpl; repeat split; auto;
      try (exists used; split; [done|]; intros HC; apply C in HC; discriminate).
    + intros v HV. apply elem_of_app in HV as [HV|HV]; [auto|].
      apply list_elem_of_singleton in HV. discriminate.
    + exists used. split; [done|]. intros _. split; [done|]. apply last_snoc.
  - inversion H; subst. repeat split; auto.
    exists used. split; [done|]. intros HC. apply C in HC. discriminate.
  - inversion H; subst. repeat split; auto.
    exists used. split; [done|]. intros HC. apply C in HC. discriminate.
Qed.

Lemma save_spec st r st' :
  save st = (r, st') ->
  (exists a h b, api_id (self st) = Some a /\ api_hash (self st) = Some h /\
                 bot_token (self st) = Some b /\ r = Return tt /\ st' = saved st a h b) \/
  (exists name, r = Raise (AttributeError name) /\ st' = st).
Proof.
  destruct st as [[d a h b p] f k t]. unfold save, bind, getattr; simpl.
  destruct a as [a|]; [|intros H; inversion H; subst; right; eauto].
  destruct h as [h|]; [|intros H; inversion H; subst; right; eauto].
  destruct b as [b|]; [|intros H; inversion H; subst; right; eauto].
  intros H. inversion H; subst. left. exists a, h, b. by repeat split.
Qed.

(** A whole run: resolution from the loaded state, then the save step if
    resolution returned. *)
Lemma resolve_from_file_spec rb ra rh rp fu file keys r st' :
  resolve_from_file rb ra rh rp fu file keys = (r, st') ->
  config_file st' = config_file (after_load file keys) /\
  (forall v, Wrote v ∈ trace st' -> Wrote v ∈ trace (after_load file keys)) /\
  (exists used, stdin (after_load file keys) = used ++ stdin st' /\
     (CtrlC ∈ used ->
      r = Exit 0 /\ last (trace st') = Some (Printed cancel_notice))).
Proof.
  unfold resolve_from_file. destruct (load_exn file) as [e|]; [|apply resolve_spec].
  intros [= <- <-]. repeat split; [done|].
  exists []. split; [done|]. intros HC. inversion HC.
Qed.

Lemma resolve_from_file_returned rb ra rh rp fu file keys st' :
  resolve_from_file rb ra rh rp fu file keys = (Return tt, st') ->
  load_exn file = None /\
  resolve rb ra rh rp fu (after_load file keys) = (Return tt, st').
Proof. unfold resolve_from_file. by destruct (load_exn file). Qed.

Lemma Config_spec rb ra rh rp fu file keys r st :
  Config rb ra rh rp fu file keys = (r, st) ->
  exists r1 st1,
    resolve_from_file rb ra rh rp fu file keys = (r1, st1) /\
    ((r1 = Return tt /\ save st1 = (r, st)) \/
     (returned r1 = false /\ r = carry r1 /\ st = st1)).
Proof.
  unfold resolve_from_file. destruct (load_exn file) as [e|] eqn:L.
  - rewrite (Config_load_fails _ _ _ _ _ _ _ e L). intros [= <- <-].
    exists (Raise e), (after_load file keys). split; [done|]. by right.
  - rewrite (Config_unfold _ _ _ _ _ _ _ L). intros H.
    apply bind_inv in H as [([] & st1 & E1 & E2)|(r0 & E1 & Hr & ->)]; eauto 10.
Qed.

Lemma record_of_dom a h b :
  dom (record_of a h b) = ({["api_id"; "api_hash"; "bot_token"]} : gset string).
Proof. unfold record_of. rewrite !dom_insert_L, dom_empty_L. set_solver. Qed.

Lemma record_of_lookup a h b :
  record_of a h b !! "api_id" = Some a /\
  record_of a h b !! "api_hash" = Some h /\
  record_of a h b !! "bot_token" = Some b /\
  record_of a h b !! "phone_number" = None.
Proof. unfold record_of. repeat split; by simplify_map_eq. Qed.

(** [str.isdigit] takes the superscript two (U+00B2), [int] does not: the
    line passes the validator of the API ID and the conversion raises. *)
Example api_id_superscript_digit :
  _get_api_id false (after_load None [Line (String "178" EmptyString)])
  = (Raise ValueError,
     mkState (mkObject (PDict ∅) None None None None) None []
       [Printed tip; Prompted "api_id"]).
Proof. vm_compute. reflexivity. Qed.

(** Ctrl-D at a prompt: [EOFError], which the handler of Ctrl-C does not
    catch; what was typed before is lost and nothing is written. *)
Example ctrl_d_raises_EOFError :
  Config true true true false false None [Line "12345"; CtrlD; Line "h"]
  = (Raise EOFError,
     mkState (mkObject (PDict ∅) (Some (PInt 12345)) None None None) None [Line "h"]
       [Printed tip; Prompted "api_id"; Printed tip; Prompted "api_hash"]).
Proof. vm_compute. reflexivity. Qed.

(** ** The getters, one field at a time *)

Lemma getter_reuse f st d v :
  as_dict (self st) = PDict d -> d !! key_of f = Some v ->
  getter_of f false st = (Return v, st).
Proof.
  intros Hd Hv.
  destruct f; cbv [key_of] in Hv;
    cbv [getter_of _get_api_id _get_api_hash _get_bot_token _get_phone_number
         bind get_as_dict];
    rewrite Hd; cbv [py_contains ret];
    (rewrite bool_decide_eq_true_2 by eauto);
    cbv [andb negb py_getitem]; rewrite Hv; reflexivity.
Qed.

Lemma session_prompt_spec fld validator msg st r st' :
  session_prompt fld validator msg st = (r, st') ->
  self st' = self st /\ config_file st' = config_file st /\
  exists n, trace st' = trace st ++ Prompted fld :: replicate n (Rejected msg).
Proof.
  unfold session_prompt.
  destruct (read_line _ _ _ _) as [[r0 rest] shown'] eqn:R.
  intros E. inversion E; subst. cbn [self config_file trace].
  apply read_line_spec in R as [_ (n & ->)].
  repeat split. exists n. by rewrite <- app_assoc.
Qed.

(** A getter that does not reuse a stored value asks: the hint, the prompt,
    then one rejection for every line the validator refused. *)
Lemma getter_asks f fu st d r st' :
  as_dict (self st) = PDict d ->
  fu = true \/ d !! key_of f = None ->
  getter_of f fu st = (r, st') ->
  self st' = self st /\ config_file st' = config_file st /\
  exists n, trace st' =
            trace st ++ hint_of f ++ Prompted (key_of f) :: replicate n (Rejected (error_of f)).
Proof.
  intros Hd Hask E.
  assert (Hb : bool_decide (is_Some (d !! key_of f)) && negb fu = false).
  { destruct Hask as [->|Hn]; [apply andb_false_r|].
    rewrite Hn. rewrite bool_decide_eq_false_2; [done|]. by intros [? ?]. }
  destruct f; cbv [key_of] in Hb;
    cbv [getter_of _get_api_id _get_api_hash _get_bot_token _get_phone_number
         bind get_as_dict] in E;
    rewrite Hd in E; cbv [py_contains ret] in E; rewrite Hb in E;
    cbv [print emit] in E;
    match type of E with
    | context [session_prompt ?a ?b ?c ?s] =>
        destruct (session_prompt a b c s) as [r0 st1] eqn:P;
        apply session_prompt_spec in P as (P1 & P2 & (n & P3));
        cbn [self config_file trace] in P1, P2, P3
    end;
    (destruct r0; [try destruct (Text.int _)|..]);
    inversion E; subst; cbv [raise] in *;
    try match goal with H : (_, _) = (_, _) |- _ => inversion H; subst end;
    (split; [done|]); (split; [done|]); exists n; rewrite P3;
    cbv [hint_of key_of error_of]; by rewrite <- ?app_assoc.
Qed.

(** ** The default run and the save step *)

Lemma bind_return {A B} (m : M A) (k : A -> M B) st a st1 :
  m st = (Return a, st1) -> bind m k st = k a st1.
Proof. intros E. unfold bind. by rewrite E. Qed.

Lemma empty_record_absent (k : string) :
  bool_decide (is_Some ((∅ : gmap string pyval) !! k)) = false.
Proof. rewrite lookup_empty. apply bool_decide_eq_false_2. by intros [? ?]. Qed.

Lemma default_run t rest :
  Text.nonempty (Text.strip t) = true ->
  Config_default None (Line t :: rest)
  = (Raise (AttributeError "api_id"),
     mkState (mkObject (PDict ∅) None None (Some (PStr (Text.strip t))) None)
             None rest [Prompted "bot_token"]).
Proof.
  intros Ht. unfold Config_default. rewrite Config_unfold by reflexivity.
  cbv [resolve try_except bind when ret after_load loaded _get_bot_token
       get_as_dict py_contains self as_dict].
  rewrite empty_record_absent.
  cbv [andb session_prompt stdin trace read_line app]. rewrite Ht.
  reflexivity.
Qed.

(** ** Steps that do not look at the file *)

Lemma blind_ret {A} (a : A) : file_blind (ret a).
Proof. intros s1 s2 S. by split. Qed.

Lemma blind_raise {A} (e : exn) : file_blind (@raise A e).
Proof. intros s1 s2 S. by split. Qed.

Lemma blind_sys_exit {A} c : file_blind (@sys_exit A c).
Proof. intros s1 s2 S. by split. Qed.

Lemma blind_get_as_dict : file_blind get_as_dict.
Proof.
  intros s1 s2 S. split; [|done]. unfold get_as_dict; cbn [fst].
  destruct S as [E _]. by rewrite E.
Qed.

Lemma blind_getattr name proj : file_blind (getattr name proj).
Proof.
  intros s1 s2 S. unfold getattr. destruct S as (E & ? & ?). rewrite E.
  destruct (proj (self s2)); by repeat split.
Qed.

Lemma blind_py_contains k v : file_blind (py_contains k v).
Proof. destruct v; simpl; auto using @blind_ret, @blind_raise. Qed.

Lemma blind_py_getitem v k : file_blind (py_getitem v k).
Proof.
  destruct v; simpl; auto using @blind_ret, @blind_raise.
  destruct (d !! k); auto using @blind_ret, @blind_raise.
Qed.

Lemma blind_update_self f : file_blind (update_self f).
Proof.
  intros s1 s2 (E & ? & ?). unfold update_self; cbn. rewrite E. by repeat split.
Qed.

Lemma blind_print text : file_blind (print text).
Proof.
  intros s1 s2 (? & ? & E). unfold print, emit; cbn. rewrite E. by repeat split.
Qed.

Lemma blind_json_dump v : file_blind (json_dump v).
Proof.
  intros s1 s2 (? & ? & E). unfold json_dump; cbn. rewrite E. by repeat split.
Qed.

Lemma blind_session_prompt fld validator msg :
  file_blind (session_prompt fld validator msg).
Proof.
  intros s1 s2 (? & E1 & E2). unfold session_prompt. rewrite E1, E2.
  destruct (read_line _ _ _ _) as [[r rest] shown]. by repeat split.
Qed.

Lemma blind_bind {A B} (m : M A) (k : A -> M B) :
  file_blind m -> (forall a, file_blind (k a)) -> file_blind (bind m k).
Proof.
  intros Hm Hk s1 s2 S. destruct (Hm s1 s2 S) as [R S']. unfold bind.
  destruct (m s1) as [r1 t1], (m s2) as [r2 t2]. cbn [fst snd] in R, S'. subst r2.
  destruct r1; [by apply Hk|by split..].
Qed.

Lemma blind_try_except {A} (body : M A) caught (handler : M A) :
  file_blind body -> file_blind handler -> file_blind (try_except body caught handler).
Proof.
  intros Hb Hh s1 s2 S. destruct (Hb s1 s2 S) as [R S']. unfold try_except.
  destruct (body s1) as [r1 t1], (body s2) as [r2 t2]. cbn [fst snd] in R, S'. subst r2.
  destruct r1; [by split| |by split..].
  destruct (caught e); [by apply Hh|by split].
Qed.

Lemma blind_when b m : file_blind m -> file_blind (when b m).
Proof. destruct b; simpl; auto using @blind_ret. Qed.

Create HintDb blind.
#[local] Hint Resolve blind_ret blind_raise blind_sys_exit blind_get_as_dict
  blind_getattr blind_py_contains blind_py_getitem blind_update_self blind_print
  blind_json_dump blind_session_prompt : blind.

Ltac blind_step :=
  lazymatch goal with
  | |- file_blind (bind _ _) => apply blind_bind; [|intros ?]
  | |- file_blind (try_except _ _ _) => apply blind_try_except
  | |- file_blind (when _ _) => apply blind_when
  | |- file_blind (if ?b then _ else _) => destruct b
  | |- file_blind (match ?o with Some _ => _ | None => _ end) => destruct o
  | |- file_blind _ => solve [auto with blind]
  end.

Lemma blind_resolve_save rb ra rh rp fu :
  file_blind (resolve rb ra rh rp fu ;;; save).
Proof.
  unfold resolve, save, _get_api_id, _get_api_hash, _get_bot_token,
    _get_phone_number, set_api_id, set_api_hash, set_bot_token,
    set_phone_number, set_as_dict.
  repeat blind_step.
Qed.

(** Two runs whose loaded records are the same go the same way. *)
Lemma Config_same_loaded rb ra rh rp fu file1 file2 keys :
  load_exn file1 = None -> load_exn file2 = None ->
  loaded file1 = loaded file2 ->
  (Config rb ra rh rp fu file1 keys).1 = (Config rb ra rh rp fu file2 keys).1 /\
  same_but_file (Config rb ra rh rp fu file1 keys).2 (Config rb ra rh rp fu file2 keys).2.
Proof.
  intros L1 L2 L. rewrite !Config_unfold by done. apply blind_resolve_save.
  unfold after_load. rewrite L. by repeat split.
Qed.

(** ** Attributes that a step does not assign *)

Lemma keeps_still {A} proj (m : M A) :
  (forall st, exists r, m st = (r, st)) -> keeps proj m.
Proof.
  intros H st r st' E. destruct (H st) as [r0 E0]. rewrite E0 in E. by inversion E.
Qed.

Lemma keeps_ret {A} proj (a : A) : keeps proj (ret a).
Proof. apply keeps_still. intros st. by eexists. Qed.

Lemma keeps_raise {A} proj e : keeps proj (@raise A e).
Proof. apply keeps_still. intros st. by eexists. Qed.

Lemma keeps_sys_exit {A} proj c : keeps proj (@sys_exit A c).
Proof. apply keeps_still. intros st. by eexists. Qed.

Lemma keeps_get_as_dict proj : keeps proj get_as_dict.
Proof. apply keeps_still. intros st. by eexists. Qed.

Lemma keeps_py_contains proj k v : keeps proj (py_contains k v).
Proof. destruct v; simpl; auto using @keeps_ret, @keeps_raise. Qed.

Lemma keeps_py_getitem proj v k : keeps proj (py_getitem v k).
Proof.
  destruct v; simpl; auto using @keeps_ret, @keeps_raise.
  destruct (d !! k); auto using @keeps_ret, @keeps_raise.
Qed.

Lemma keeps_print proj text : keeps proj (print text).
Proof. intros st r st' E. by inversion E. Qed.

Lemma keeps_session_prompt proj fld validator msg :
  keeps proj (session_prompt fld validator msg).
Proof. intros st r st' E. apply session_prompt_spec in E as (-> & _). reflexivity. Qed.

Lemma keeps_update_self proj f :
  (forall o, proj (f o) = proj o) -> keeps proj (update_self f).
Proof. intros H st r st' E. inversion E; subst. apply H. Qed.

Lemma keeps_bind {A B} proj (m : M A) (k : A -> M B) :
  keeps proj m -> (forall a, keeps proj (k a)) -> keeps proj (bind m k).
Proof.
  intros Hm Hk st r st' E.
  apply bind_inv in E as [(a & st1 & E1 & E2)|(r0 & E1 & _ & _)].
  - apply Hm in E1. apply Hk in E2. congruence.
  - by apply Hm in E1.
Qed.

Lemma keeps_try_except {A} proj (body : M A) caught (handler : M A) :
  keeps proj body -> keeps proj handler -> keeps proj (try_except body caught handler).
Proof.
  intros Hb Hh st r st' E. unfold try_except in E.
  destruct (body st) as [r0 st1] eqn:E0. apply Hb in E0.
  destruct r0; try (inversion E; subst; done).
  destruct (caught e); [|inversion E; subst; done].
  apply Hh in E. congruence.
Qed.

Lemma keeps_when proj b m : keeps proj m -> keeps proj (when b m).
Proof. destruct b; simpl; auto using @keeps_ret. Qed.

Lemma keeps_getter proj f fu : keeps proj (getter_of f fu).
Proof.
  destruct f; simpl;
    unfold _get_api_id, _get_api_hash, _get_bot_token, _get_phone_number;
    repeat first
      [ apply keeps_bind; [|intros ?]
      | match goal with
        | |- keeps _ (if ?b then _ else _) => destruct b
        | |- keeps _ (match ?o with Some _ => _ | None => _ end) => destruct o
        end
      | solve [auto using keeps_ret, keeps_raise, keeps_get_as_dict,
                 keeps_py_contains, keeps_py_getitem, keeps_print,
                 keeps_session_prompt] ].
Qed.

(** A field that is not requested is still unassigned after resolution. *)
Lemma resolve_keeps_unrequested rb ra rh rp fu :
  (ra = false -> keeps api_id (resolve rb ra rh rp fu)) /\
  (rh = false -> keeps api_hash (resolve rb ra rh rp fu)) /\
  (rb = false -> keeps bot_token (resolve rb ra rh rp fu)).
Proof.
  pose proof (fun proj => keeps_getter proj Api_id fu) as G1.
  pose proof (fun proj => keeps_getter proj Api_hash fu) as G2.
  pose proof (fun proj => keeps_getter proj Bot_token fu) as G3.
  pose proof (fun proj => keeps_getter proj Phone_number fu) as G4.
  simpl in G1, G2, G3, G4.
  repeat split; intros ->; unfold resolve;
    (apply keeps_try_except;
     [|apply keeps_bind; [apply keeps_print|intros ?; apply keeps_sys_exit]]);
    repeat (apply keeps_bind; [|intros ?]);
    try apply keeps_ret;
    try (apply keeps_when; apply keeps_bind; [auto|intros ?]);
    try (apply keeps_bind; [auto|intros ?]);
    apply keeps_update_self; reflexivity.
Qed.

(** A run that returns had the three saved fields requested. *)
Lemma returning_run_requested_all rb ra rh rp fu file keys st :
  Config rb ra rh rp fu file keys = (Return tt, st) ->
  ra = true /\ rh = true /\ rb = true.
Proof.
  intros E. apply Config_spec in E as (r1 & st1 & R & HS).
  destruct HS as [[-> S]|(Hr & Hc & _)]; [|destruct r1; discriminate].
  apply resolve_from_file_returned in R as [_ R].
  apply save_spec in S as [(a & h & b & Ha & Hh & Hb & _)|(name & ? & _)]; [|discriminate].
  destruct (resolve_keeps_unrequested rb ra rh rp fu) as (K1 & K2 & K3).
  repeat split.
  - destruct ra; [done|]. specialize (K1 eq_refl _ _ _ R). simpl in K1. congruence.
  - destruct rh; [done|]. specialize (K2 eq_refl _ _ _ R). simpl in K2. congruence.
  - destruct rb; [done|]. specialize (K3 eq_refl _ _ _ R). simpl in K3. congruence.
Qed.

(** ** Loading what a run wrote *)

Lemma reuse_and_set f (set : pyval -> M unit) st (d : gmap string pyval) v :
  as_dict (self st) = PDict d -> d !! key_of f = Some v ->
  when true (x <- getter_of f false ;; set x) st = set v st.
Proof.
  intros Hd Hv. cbv [when]. apply bind_return. by eapply getter_reuse.
Qed.

Lemma reload_three a h b file keys (k : M unit) :
  (when true (v <- _get_api_id false ;; set_api_id v) ;;;
   when true (v <- _get_api_hash false ;; set_api_hash v) ;;;
   when true (v <- _get_bot_token false ;; set_bot_token v) ;;; k)
    (mkState (mkObject (PDict (record_of a h b)) None None None None) file keys [])
  = k (reloaded a h b None file keys []).
Proof.
  destruct (record_of_lookup a h b) as (La & Lh & Lb & _).
  erewrite bind_return;
    [|apply (reuse_and_set Api_id set_api_id _ (record_of a h b) a); [reflexivity|exact La]].
  erewrite bind_return;
    [|apply (reuse_and_set Api_hash set_api_hash _ (record_of a h b) h); [reflexivity|exact Lh]].
  erewrite bind_return;
    [|apply (reuse_and_set Bot_token set_bot_token _ (record_of a h b) b); [reflexivity|exact Lb]].
  reflexivity.
Qed.

Lemma prompted_in_asked f g n :
  Prompted (key_of f) ∈
    [] ++ hint_of g ++ Prompted (key_of g) :: replicate n (Rejected (error_of g)) ->
  f = g.
Proof.
  intros H. rewrite app_nil_l in H.
  apply elem_of_app in H as [H|H].
  - destruct g; simpl in H; try (by inversion H);
      apply list_elem_of_singleton in H; discriminate.
  - apply elem_of_cons in H as [H|H].
    + destruct f, g; simpl in H; first [reflexivity|discriminate].
    + apply elem_of_replicate in H as [H _]. discriminate.
Qed.

Lemma reload_run a h b rp keys2 :
  let r2 := (Config true true true rp false
               (Some (Json (PDict (record_of a h b)))) keys2).1 in
  let st2 := (Config true true true rp false
                (Some (Json (PDict (record_of a h b)))) keys2).2 in
  api_id (self st2) = Some a /\
  api_hash (self st2) = Some h /\
  bot_token (self st2) = Some b /\
  (forall f, Prompted (key_of f) ∈ trace st2 -> f = Phone_number) /\
  (rp = false ->
   r2 = Return tt /\ stdin st2 = keys2 /\
   trace st2 = [Wrote (PDict (record_of a h b))] /\
   config_file st2 = Some (Json (PDict (record_of a h b)))).
Proof.
  cbv zeta.
  destruct (Config true true true rp false _ keys2) as [r2 st2] eqn:E.
  cbn [fst snd]. rewrite Config_unfold in E by reflexivity.
  cbv [after_load loaded resolve] in E.
  unfold bind at 1 in E. unfold try_except in E. rewrite reload_three in E.
  destruct rp.
  - cbv [when] in E. unfold bind at 1 in E.
    destruct (_get_phone_number false _) as [r4 st4] eqn:P.
    eapply (getter_asks Phone_number) in P as (P1 & P2 & n & P3);
      [|reflexivity|right; apply record_of_lookup].
    destruct st4 as [o4 f4 k4 t4].
    cbn [reloaded self config_file trace] in P1, P2, P3. subst o4 f4.
    destruct r4 as [v|e|c|]; [|destruct e|..];
      cbn [set_phone_number update_self save bind getattr self api_id api_hash
           bot_token phone_number as_dict set_as_dict get_as_dict json_dump print
           emit sys_exit fst snd trace stdin config_file] in E;
      inversion E; subst r2 st2; cbn [self api_id api_hash bot_token trace];
      (split; [reflexivity|]); (split; [reflexivity|]); (split; [reflexivity|]);
      (split; [|discriminate]); intros f Hf;
      try (apply elem_of_app in Hf as [Hf|Hf];
           [|apply list_elem_of_singleton in Hf; discriminate]);
      rewrite P3 in Hf; exact (prompted_in_asked _ _ _ Hf).
  - cbv [when ret reloaded] in E.
    cbn [save bind getattr self api_id api_hash bot_token phone_number as_dict
         set_as_dict update_self get_as_dict json_dump fst snd trace stdin
         config_file app] in E.
    inversion E; subst r2 st2. cbn [self api_id api_hash bot_token trace stdin config_file].
    repeat split. intros f Hf. apply list_elem_of_singleton in Hf. discriminate.
Qed.

(** * The claims *)

(** C1.  The specification says: with the default flags (only the bot token requested)
    and no prior file, a valid token makes the pass complete and write a
    file with the keys api_id, api_hash and bot_token.  The code does not:
    the token is resolved, then the record display reads [self.api_id],
    which was never assigned; the run ends in [AttributeError], the file is
    still missing and nothing was written. *)
Theorem default_run_ends_in_AttributeError t rest :
  Text.nonempty (Text.strip t) = true ->
  exists st,
    Config_default None (Line t :: rest) = (Raise (AttributeError "api_id"), st) /\
    bot_token (self st) = Some (PStr (Text.strip t)) /\
    config_file st = None /\
    forall v, Wrote v ∉ trace st.
Proof.
  intros Ht. eexists. split; [by apply default_run|].
  cbn [self bot_token config_file trace]. repeat split.
  intros v HV. apply list_elem_of_singleton in HV. discriminate.
Qed.

Lemma default_run_ends_in_AttributeError_witness :
  exists st,
    Config_default None [Line "  123abc "] = (Raise (AttributeError "api_id"), st) /\
    bot_token (self st) = Some (PStr "123abc") /\
    config_file st = None /\
    forall v, Wrote v ∉ trace st.
Proof. exact (default_run_ends_in_AttributeError "  123abc " [] eq_refl). Defined.

(** C2.  The specification says: the written file holds exactly the fields resolved in
    the run, a resolved phone_number included.  On the code, a run with all
    four fields requested resolves the phone number and returns, and the
    file it wrote has the three other keys and no phone_number. *)
Theorem resolved_phone_number_is_not_written :
  exists st d,
    Config true true true true false None
      [Line "12345"; Line "hash"; Line "token"; Line "+15551234567"]
    = (Return tt, st) /\
    phone_number (self st) = Some (PStr "+15551234567") /\
    config_file st = Some (Json (PDict d)) /\
    d !! "api_id" = Some (PInt 12345) /\
    d !! "phone_number" = None.
Proof.
  eexists. eexists. split; [vm_compute; reflexivity|].
  cbn [self phone_number config_file].
  split; [reflexivity|]. split; [reflexivity|]. split; reflexivity.
Qed.

(** C3.  Whenever the file is written its content is an object with exactly
    the keys api_id, api_hash and bot_token, and [as_dict] is that same
    record; phone_number is not a key of it, whatever was requested and
    resolved.  A run either returns, having written that record once, or
    does not return and leaves the file as it was. *)
Theorem written_record_has_exactly_three_keys rb ra rh rp fu file keys :
  let r := (Config rb ra rh rp fu file keys).1 in
  let st := (Config rb ra rh rp fu file keys).2 in
  (r = Return tt /\
   exists d : gmap string pyval,
     dom d = ({["api_id"; "api_hash"; "bot_token"]} : gset string) /\
     d !! "phone_number" = None /\
     as_dict (self st) = PDict d /\
     config_file st = Some (Json (PDict d)) /\
     forall v, Wrote v ∈ trace st -> v = PDict d) \/
  (r <> Return tt /\ config_file st = file /\ forall v, Wrote v ∉ trace st).
Proof.
  destruct (Config rb ra rh rp fu file keys) as [r st] eqn:E. cbn [fst snd].
  apply Config_spec in E as (r1 & st1 & R & HS).
  apply resolve_from_file_spec in R as (F & W & _). cbn [after_load config_file trace] in F, W.
  assert (W1 : forall v, Wrote v ∉ trace st1).
  { intros v HV. apply W in HV. inversion HV. }
  destruct HS as [[-> S]|(Hr & -> & ->)].
  - apply save_spec in S as [(a & h & b & _ & _ & _ & -> & ->)|(name & -> & ->)].
    + left. split; [done|]. exists (record_of a h b).
      split; [apply record_of_dom|]. split; [apply record_of_lookup|].
      cbn [saved self as_dict config_file trace]. repeat split.
      intros v HV. apply elem_of_app in HV as [HV|HV]; [by apply W1 in HV|].
      apply list_elem_of_singleton in HV. by inversion HV.
    + right. by repeat split.
  - right. repeat split; [|done|done]. destruct r1; simpl; discriminate.
Qed.

(** C4.  The specification says: the api_id prompt accepts every line whose trimmed text
    is all decimal digits.  The validator of the code is [t.isdigit()] on
    the line as typed: " 123 " is refused with the error message, the
    prompt stays open, and the next line is the one that is taken. *)
Theorem api_id_refuses_padded_digits :
  _get_api_id false (after_load None [Line " 123 "; Line "98765"])
  = (Return (PInt 98765),
     mkState (mkObject (PDict ∅) None None None None) None []
       [Printed tip; Prompted "api_id"; Rejected "Enter a numeric API ID"]).
Proof. vm_compute. reflexivity. Qed.

(** C5.  A field present in the loaded record is returned as stored when
    [force_update] is false: the same value, whatever its type, with no
    prompt, no key read and no other change of state. *)
Theorem stored_value_is_returned_verbatim f st (d : gmap string pyval) v :
  as_dict (self st) = PDict d ->
  d !! key_of f = Some v ->
  getter_of f false st = (Return v, st).
Proof. apply getter_reuse. Qed.

Lemma stored_value_is_returned_verbatim_witness :
  getter_of Api_id false
    (after_load (Some (Json (PDict {["api_id" := PStr "not a number"]}))) [Line "1"])
  = (Return (PStr "not a number"),
     after_load (Some (Json (PDict {["api_id" := PStr "not a number"]}))) [Line "1"]).
Proof.
  apply (stored_value_is_returned_verbatim Api_id _
           {["api_id" := PStr "not a number"]} (PStr "not a number")).
  - reflexivity.
  - reflexivity.
Defined.

(** C6.  With [force_update] true the getter of a field issues the prompt
    of that field, whether or not the loaded record has the key. *)
Theorem forced_getter_prompts f st (d : gmap string pyval) :
  as_dict (self st) = PDict d ->
  exists shown,
    trace (getter_of f true st).2 = trace st ++ shown /\
    Prompted (key_of f) ∈ shown.
Proof.
  intros Hd. destruct (getter_of f true st) as [r st'] eqn:E. cbn [snd].
  eapply getter_asks in E as (_ & _ & n & ->); [|exact Hd|by left].
  eexists. split; [reflexivity|].
  apply elem_of_app. right. apply elem_of_cons. by left.
Qed.

Lemma forced_getter_prompts_witness :
  exists shown,
    trace (getter_of Bot_token true
             (after_load (Some (Json (PDict {["bot_token" := PStr "old"]})))
                [Line "new"])).2
    = [] ++ shown /\
    Prompted "bot_token" ∈ shown.
Proof.
  exact (forced_getter_prompts Bot_token
           (after_load (Some (Json (PDict {["bot_token" := PStr "old"]}))) [Line "new"])
           {["bot_token" := PStr "old"]} eq_refl).
Defined.

(** C7.  A Ctrl-C read by a prompt: the run read the keys up to and
    including that Ctrl-C ([post] is what is left).  It then ends through
    [sys.exit(0)], the cancellation notice is the last thing printed, the
    file is as it was and nothing was written; the run does not raise. *)
Theorem interrupt_exits_with_status_zero rb ra rh rp fu file pre post :
  stdin (Config rb ra rh rp fu file (pre ++ CtrlC :: post)).2 = post ->
  let r := (Config rb ra rh rp fu file (pre ++ CtrlC :: post)).1 in
  let st := (Config rb ra rh rp fu file (pre ++ CtrlC :: post)).2 in
  r = Exit 0 /\
  last (trace st) = Some (Printed cancel_notice) /\
  config_file st = file /\
  forall v, Wrote v ∉ trace st.
Proof.
  destruct (Config rb ra rh rp fu file (pre ++ CtrlC :: post)) as [r st] eqn:E.
  cbn [fst snd]. intros Hpost.
  apply Config_spec in E as (r1 & st1 & R & HS).
  apply resolve_from_file_spec in R as (F & W & (used & I & C)).
  cbn [after_load config_file trace stdin] in F, W, I.
  assert (S1 : stdin st1 = post).
  { destruct HS as [[-> S]|(_ & _ & ->)]; [|done].
    apply save_spec in S as [(a & h & b & _ & _ & _ & _ & ->)|(name & _ & ->)]; done. }
  assert (HC : CtrlC ∈ used).
  { rewrite S1 in I. change (pre ++ CtrlC :: post) with (pre ++ [CtrlC] ++ post) in I.
    rewrite app_assoc in I. apply app_inv_tail in I. subst used.
    apply elem_of_app. right. apply list_elem_of_singleton. reflexivity. }
  destruct (C HC) as [-> L].
  destruct HS as [[? _]|(_ & -> & ->)]; [discriminate|].
  repeat split; [done|done|].
  intros v HV. apply W in HV. inversion HV.
Qed.

Lemma interrupt_exits_with_status_zero_witness :
  let r := (Config true true false false false None
              ([Line "abc"] ++ CtrlC :: [Line "98765"])).1 in
  let st := (Config true true false false false None
               ([Line "abc"] ++ CtrlC :: [Line "98765"])).2 in
  r = Exit 0 /\
  last (trace st) = Some (Printed cancel_notice) /\
  config_file st = None /\
  forall v, Wrote v ∉ trace st.
Proof.
  exact (interrupt_exits_with_status_zero true true false false false None
           [Line "abc"] [Line "98765"] eq_refl).
Defined.

(** C8, as the specification states it, covers every file that is not
    valid JSON.  Line 137 catches [JSONDecodeError] only: a file whose
    bytes are not UTF-8 makes the load step raise [UnicodeDecodeError],
    and the constructor ends there, with no prompt. *)
Lemma non_utf8_file_raises_out_of_load :
  (set_as_dict (PDict ∅) ;;; load) (start (Some NotUtf8) [Line "123abc"])
  = (Raise UnicodeDecodeError,
     mkState (mkObject (PDict ∅) None None None None) (Some NotUtf8)
       [Line "123abc"] []) /\
  Config_default (Some NotUtf8) [Line "123abc"]
  = (Raise UnicodeDecodeError,
     mkState (mkObject (PDict ∅) None None None None) (Some NotUtf8)
       [Line "123abc"] []).
Proof. split; reflexivity. Qed.

(** C8, amended.  A missing file, or a file on which [json.load] raises
    [JSONDecodeError], gives the empty record and no error at the load
    step; the run then goes exactly as the run on a file that stores the
    empty object: same end, same attributes, same keys read, same terminal
    output and writes. *)
Theorem load_failure_gives_empty_record file :
  file = None \/ file = Some NotJson ->
  (forall keys,
     (set_as_dict (PDict ∅) ;;; load) (start file keys)
     = (Return tt, mkState (mkObject (PDict ∅) None None None None) file keys [])) /\
  (forall rb ra rh rp fu keys,
     (Config rb ra rh rp fu file keys).1
     = (Config rb ra rh rp fu (Some (Json (PDict ∅))) keys).1 /\
     same_but_file (Config rb ra rh rp fu file keys).2
                   (Config rb ra rh rp fu (Some (Json (PDict ∅))) keys).2).
Proof.
  intros H. split.
  - intros keys. rewrite load_step. by destruct H as [->| ->].
  - intros. by apply Config_same_loaded; destruct H as [->| ->].
Qed.

Lemma load_failure_gives_empty_record_witness :
  (forall keys,
     (set_as_dict (PDict ∅) ;;; load) (start (Some NotJson) keys)
     = (Return tt,
        mkState (mkObject (PDict ∅) None None None None) (Some NotJson) keys [])) /\
  (forall rb ra rh rp fu keys,
     (Config rb ra rh rp fu (Some NotJson) keys).1
     = (Config rb ra rh rp fu (Some (Json (PDict ∅))) keys).1 /\
     same_but_file (Config rb ra rh rp fu (Some NotJson) keys).2
                   (Config rb ra rh rp fu (Some (Json (PDict ∅))) keys).2).
Proof. exact (load_failure_gives_empty_record (Some NotJson) (or_intror eq_refl)). Defined.

(** C9.  Round trip: after a run that wrote the file (it returned), a
    second construction on the file it left, with the same flags and
    [force_update] false, gives every requested field among api_id,
    api_hash and bot_token the value the first run gave it, and issues a
    prompt for none of them; when the phone number is not requested it
    issues no prompt at all, reads no key and returns. *)
Theorem reload_gives_same_values rb ra rh rp fu file keys st1 keys2 :
  Config rb ra rh rp fu file keys = (Return tt, st1) ->
  let r2 := (Config rb ra rh rp false (config_file st1) keys2).1 in
  let st2 := (Config rb ra rh rp false (config_file st1) keys2).2 in
  (ra = true -> is_Some (api_id (self st1)) /\ api_id (self st2) = api_id (self st1)) /\
  (rh = true -> is_Some (api_hash (self st1)) /\ api_hash (self st2) = api_hash (self st1)) /\
  (rb = true -> is_Some (bot_token (self st1)) /\ bot_token (self st2) = bot_token (self st1)) /\
  (forall f, Prompted (key_of f) ∈ trace st2 -> f = Phone_number) /\
  (rp = false ->
   r2 = Return tt /\ stdin st2 = keys2 /\ (forall k, Prompted k ∉ trace st2) /\
   config_file st2 = config_file st1).
Proof.
  intros E. destruct (returning_run_requested_all _ _ _ _ _ _ _ _ E) as (-> & -> & ->).
  apply Config_spec in E as (r1 & st0 & _ & HS).
  destruct HS as [[_ S]|(Hr & Hc & _)]; [|destruct r1; discriminate].
  apply save_spec in S as [(a & h & b & _ & _ & _ & _ & ->)|(name & ? & _)]; [|discriminate].
  cbn [saved self api_id api_hash bot_token config_file].
  destruct (reload_run a h b rp keys2) as (Ha & Hh & Hb & Hp & Hq).
  cbv zeta. rewrite Ha, Hh, Hb. repeat split; eauto.
  - by apply Hq.
  - by apply Hq.
  - intros k Hk. destruct (Hq H) as (_ & _ & T & _). rewrite T in Hk.
    apply list_elem_of_singleton in Hk. discriminate.
  - by apply Hq.
Qed.

Lemma reload_gives_same_values_witness :
  let rec := record_of (PInt 12345) (PStr "hash") (PStr "token") in
  let st1 :=
    mkState (mkObject (PDict rec) (Some (PInt 12345)) (Some (PStr "hash"))
               (Some (PStr "token")) None)
            (Some (Json (PDict rec))) []
            [Printed tip; Prompted "api_id"; Printed tip; Prompted "api_hash";
             Prompted "bot_token"; Wrote (PDict rec)] in
  let r2 := (Config true true true false false (config_file st1) []).1 in
  let st2 := (Config true true true false false (config_file st1) []).2 in
  (true = true -> is_Some (api_id (self st1)) /\ api_id (self st2) = api_id (self st1)) /\
  (true = true -> is_Some (api_hash (self st1)) /\ api_hash (self st2) = api_hash (self st1)) /\
  (true = true -> is_Some (bot_token (self st1)) /\ bot_token (self st2) = bot_token (self st1)) /\
  (forall f, Prompted (key_of f) ∈ trace st2 -> f = Phone_number) /\
  (false = false ->
   r2 = Return tt /\ stdin st2 = [] /\ (forall k, Prompted k ∉ trace st2) /\
   config_file st2 = config_file st1).
Proof.
  intros rec st1.
  apply (reload_gives_same_values true true true false true (Some NotJson)
           [Line "12345"; Line " hash "; Line "token"] st1 []).
  vm_compute. reflexivity.
Defined.

(** C10.  A file that holds valid JSON whose top-level value is null, a
    boolean or a number is loaded as it is, not replaced by the empty
    record; the first membership test of the resolution then raises
    [TypeError], which nothing catches: no prompt, nothing written. *)
Theorem non_object_json_raises_TypeError v rb ra rh rp fu keys :
  scalar v = true ->
  rb || ra || rh || rp = true ->
  Config rb ra rh rp fu (Some (Json v)) keys
  = (Raise TypeError,
     mkState (mkObject v None None None None) (Some (Json v)) keys []).
Proof.
  intros Hv Hf. rewrite Config_unfold by reflexivity.
  destruct v; try discriminate Hv;
    destruct ra, rh, rb, rp; try discriminate Hf; reflexivity.
Qed.

Lemma non_object_json_raises_TypeError_witness :
  Config_default (Some (Json (PInt 123))) [Line "123abc"]
  = (Raise TypeError,
     mkState (mkObject (PInt 123) None None None None) (Some (Json (PInt 123)))
       [Line "123abc"] []).
Proof.
  exact (non_object_json_raises_TypeError (PInt 123) true false false false false
           [Line "123abc"] eq_refl eq_refl).
Defined.

(** * More about the text functions, the prompt and whole runs *)

(** ** Text: white space, digits and the phone pattern *)

Lemma digit_char_not_space c :
  Text.isdigit_char c = true -> Text.isspace_char c = false.
Proof.
  destruct c as [[] [] [] [] [] [] [] []]; vm_compute; congruence.
Qed.

Lemma decimal_char_facts c :
  Text.isdecimal_char c = true ->
  Text.isdigit_char c = true /\ Ascii.eqb c "_" = false /\ 0 <= Text.code c - 48 /\
  c <> "+"%char /\ c <> "-"%char.
Proof.
  destruct c as [[] [] [] [] [] [] [] []]; vm_compute; intros H;
    try discriminate H; repeat split; congruence.
Qed.

Lemma lstrip_no_space s :
  Text.all_chars (fun c => negb (Text.isspace_char c)) s = true -> Text.lstrip s = s.
Proof.
  destruct s as [|c r]; [reflexivity|]. simpl.
  intros H. apply andb_true_iff in H as [H _].
  apply negb_true_iff in H. by rewrite H.
Qed.

Lemma rstrip_no_space s :
  Text.all_chars (fun c => negb (Text.isspace_char c)) s = true -> Text.rstrip s = s.
Proof.
  induction s as [|c r IH]; [reflexivity|]. simpl.
  intros H. apply andb_true_iff in H as [Hc Hr].
  apply negb_true_iff in Hc. rewrite (IH Hr), Hc. by destruct r.
Qed.

Lemma all_chars_impl (p q : ascii -> bool) s :
  (forall c, p c = true -> q c = true) ->
  Text.all_chars p s = true -> Text.all_chars q s = true.
Proof.
  intros Hpq. induction s as [|c r IH]; [done|]. simpl.
  intros H. apply andb_true_iff in H as [Hc Hr].
  by rewrite (Hpq c Hc), (IH Hr).
Qed.

Lemma strip_digits t :
  Text.all_chars Text.isdigit_char t = true -> Text.strip t = t.
Proof.
  intros H.
  assert (N : Text.all_chars (fun c => negb (Text.isspace_char c)) t = true).
  { eapply all_chars_impl; [|exact H]. intros c Hc.
    by rewrite (digit_char_not_space c Hc). }
  unfold Text.strip. by rewrite (lstrip_no_space t N), (rstrip_no_space t N).
Qed.

Lemma isdigit_all t :
  Text.isdigit t = true -> Text.all_chars Text.isdigit_char t = true /\ t <> EmptyString.
Proof. destruct t; [discriminate|]. intros H. by split. Qed.

Lemma digits_value_nonneg s : forall acc ad n,
  0 <= acc -> Text.digits_value acc ad s = Some n -> 0 <= n.
Proof.
  induction s as [|c r IH]; intros acc ad n Ha; simpl.
  - destruct ad; [|discriminate]. by intros [= <-].
  - destruct (Ascii.eqb c "_").
    + destruct ad; [|discriminate]. by apply IH.
    + destruct (Text.isdecimal_char c) eqn:D; [|discriminate].
      apply IH. destruct (decimal_char_facts c D) as (_ & _ & ? & _). lia.
Qed.


Lemma digits_value_superscript s : forall acc ad,
  Text.all_chars Text.isdigit_char s = true ->
  Text.all_chars Text.isdecimal_char s = false ->
  Text.digits_value acc ad s = None.
Proof.
  induction s as [|c r IH]; intros acc ad H N; simpl in *; [discriminate|].
  apply andb_true_iff in H as [Hc Hr].
  destruct (Text.isdecimal_char c) eqn:D.
  - destruct (decimal_char_facts c D) as (_ & -> & _). simpl in N. by apply IH.
  - assert (E : Ascii.eqb c "_" = false).
    { destruct (Ascii.eqb_spec c "_") as [->|]; [discriminate Hc|done]. }
    by rewrite E.
Qed.

(** [int] on a line that is all digits: no white space, no sign. *)
Lemma int_digits t :
  Text.isdigit t = true ->
  Text.int (Text.strip t) = Text.limited_value t.
Proof.
  intros H. destruct (isdigit_all t H) as [A _]. rewrite (strip_digits t A).
  destruct t as [|c r]; [reflexivity|]. unfold Text.int.
  rewrite (strip_digits _ A). simpl in A. apply andb_true_iff in A as [Hc _].
  clear H. revert Hc.
  destruct c as [[] [] [] [] [] [] [] []]; try reflexivity;
    intros Hc; vm_compute in Hc; discriminate Hc.
Qed.

Ltac string_app := unfold String.append; fold String.append.

Lemma lstrip_head s c r :
  Text.lstrip s = String c r -> Text.isspace_char c = false.
Proof.
  induction s as [|a s IH]; simpl; [discriminate|].
  destruct (Text.isspace_char a) eqn:E; [exact IH|].
  intros [= <- <-]. exact E.
Qed.

Lemma rstrip_head c r c' r' :
  Text.rstrip (String c r) = String c' r' -> c' = c.
Proof.
  simpl. destruct (Text.rstrip r).
  - destruct (Text.isspace_char c); [discriminate|]. by intros [= <- _].
  - by intros [= <- _].
Qed.

Lemma rstrip_idem s : Text.rstrip (Text.rstrip s) = Text.rstrip s.
Proof.
  induction s as [|c r IH]; [reflexivity|]. simpl.
  destruct (Text.rstrip r) as [|a u] eqn:E.
  - destruct (Text.isspace_char c) eqn:S; [reflexivity|]. simpl. by rewrite S.
  - change (Text.rstrip (String c (String a u))) with
      (match Text.rstrip (String a u) with
       | EmptyString =>
           if Text.isspace_char c then EmptyString else String c EmptyString
       | r' => String c r'
       end).
    by rewrite IH.
Qed.

(** The last character of a right-stripped text is not white space. *)
Lemma rstrip_last s : forall u c,
  Text.rstrip s = (u +:+ String c EmptyString) -> Text.isspace_char c = false.
Proof.
  induction s as [|a r IH]; intros u c; simpl.
  - destruct u; discriminate.
  - destruct (Text.rstrip r) as [|b v] eqn:E.
    + destruct (Text.isspace_char a) eqn:S; [destruct u; discriminate|].
      destruct u as [|x u]; string_app.
      * by intros [= <-].
      * intros [= _ H]. destruct u; discriminate.
    + destruct u as [|x u]; string_app.
      * discriminate.
      * intros [= _ H]. by apply (IH u c).
Qed.

Lemma strip_head t c r :
  Text.strip t = String c r -> Text.isspace_char c = false.
Proof.
  unfold Text.strip. destruct (Text.lstrip t) as [|a u] eqn:E; [discriminate|].
  intros H. apply rstrip_head in H as ->. by apply lstrip_head in E.
Qed.

Lemma strip_idem t : Text.strip (Text.strip t) = Text.strip t.
Proof.
  destruct (Text.strip t) as [|c r] eqn:E; [reflexivity|].
  pose proof (strip_head t c r E) as S.
  unfold Text.strip at 1. simpl Text.lstrip. rewrite S.
  rewrite <- E. unfold Text.strip. apply rstrip_idem.
Qed.

Lemma span_decimal_spec s k rest :
  Text.span_decimal s = (k, rest) ->
  exists ds, s = (ds +:+ rest) /\ Text.all_chars Text.isdecimal_char ds = true /\
             String.length ds = k /\
             match rest with
             | String c _ => Text.isdecimal_char c = false
             | EmptyString => True
             end.
Proof.
  revert k rest. induction s as [|c r IH]; intros k rest; simpl.
  - intros [= <- <-]. by exists EmptyString.
  - destruct (Text.isdecimal_char c) eqn:D.
    + destruct (Text.span_decimal r) as [k' rest'] eqn:E. intros [= <- <-].
      destruct (IH _ _ eq_refl) as (ds & -> & A & L & R).
      exists (String c ds). simpl. string_app. rewrite D, A, L. by repeat split.
    + intros [= <- <-]. exists EmptyString. by repeat split.
Qed.

Lemma span_decimal_all s :
  Text.all_chars Text.isdecimal_char s = true ->
  Text.span_decimal s = (String.length s, EmptyString).
Proof.
  induction s as [|c r IH]; [reflexivity|]. simpl.
  intros H. apply andb_true_iff in H as [-> Hr]. by rewrite (IH Hr).
Qed.

Lemma append_empty_r s : (s +:+ EmptyString) = s.
Proof. induction s as [|c r IH]; [reflexivity|]. string_app. by rewrite IH. Qed.

Lemma first_char_facts c :
  Text.between 49 57 (Text.code c) = true ->
  Text.isdecimal_char c = true /\ c <> "+"%char.
Proof.
  destruct c as [[] [] [] [] [] [] [] []]; vm_compute; intros H;
    try discriminate H; split; congruence.
Qed.

Lemma match_phone_no_plus c r :
  c <> "+"%char -> Text.match_phone (String c r) = Text.phone_tail (String c r).
Proof.
  intros H. destruct c as [[] [] [] [] [] [] [] []]; try reflexivity. by destruct H.
Qed.

(** On a text without white space at its end, the pattern means the shape. *)
Lemma match_phone_shape s :
  (forall u c, s = (u +:+ String c EmptyString) -> Text.isspace_char c = false) ->
  Text.match_phone s = true <-> phone_shape s.
Proof.
  intros Hlast.
  assert (Tail : forall p s', s = (p +:+ s') ->
            Text.phone_tail s' = true ->
            exists c body, s' = String c body /\
              Text.between 49 57 (Text.code c) = true /\
              Text.all_chars Text.isdecimal_char body = true /\
              (6 <= String.length body <= 14)%nat).
  { intros p s' Hs H. destruct s' as [|c r]; [discriminate|].
    unfold Text.phone_tail in H.
    apply andb_true_iff in H as [Hc H].
    destruct (Text.span_decimal r) as [k rest] eqn:E.
    apply andb_true_iff in H as [H He]. apply andb_true_iff in H as [H6 H14].
    apply Nat.leb_le in H6, H14.
    apply span_decimal_spec in E as (ds & -> & A & L & _).
    destruct rest as [|x rest].
    - rewrite append_empty_r. exists c, ds. repeat split; auto; lia.
    - destruct rest; [|discriminate]. unfold Text.at_end in He. exfalso.
      assert (S : Text.isspace_char x = true).
      { revert He. destruct x as [[] [] [] [] [] [] [] []]; vm_compute; congruence. }
      rewrite (Hlast (p +:+ String c ds) x) in S; [discriminate|].
      rewrite Hs. clear. induction p as [|a p IH]; string_app; [|by rewrite IH].
      reflexivity. }
  split.
  - intros H. destruct s as [|c r]; [discriminate|].
    destruct (ascii_dec c "+") as [->|N].
    + change (Text.match_phone (String "+" r)) with (Text.phone_tail r) in H.
      destruct (Tail (String "+" EmptyString) r eq_refl H) as (c & body & -> & ?).
      exists c, body. split; [by right|done].
    + rewrite (match_phone_no_plus c r N) in H.
      destruct (Tail EmptyString _ eq_refl H) as (c' & body & [= -> ->] & ?).
      exists c', body. split; [by left|done].
  - intros (c & body & Hs & Hc & A & L6 & L14).
    assert (T : Text.phone_tail (String c body) = true).
    { unfold Text.phone_tail. rewrite Hc, (span_decimal_all body A).
      rewrite andb_true_l, andb_true_r.
      apply andb_true_iff. split; apply Nat.leb_le; lia. }
    destruct Hs as [-> | ->].
    + destruct (first_char_facts c Hc) as [_ N]. by rewrite (match_phone_no_plus c body N).
    + exact T.
Qed.

(** The phone validator: white space around the line is ignored, and what
    is left has the shape of a phone number. *)
Lemma phone_validator_shape t :
  validator_of Phone_number t = true <-> phone_shape (Text.strip t).
Proof.
  apply match_phone_shape. intros u c H. by apply (rstrip_last (Text.lstrip t) u c).
Qed.

(** ** The prompt, line by line *)

Lemma read_line_refused validator msg (refused : list string) keys shown :
  Forall (fun u => validator u = false) refused ->
  read_line validator msg ((Line <$> refused) ++ keys) shown
  = read_line validator msg keys (shown ++ replicate (length refused) (Rejected msg)).
Proof.
  intros H. revert shown. induction H as [|u refused Hu _ IH]; intros shown.
  - simpl. by rewrite app_nil_r.
  - simpl. rewrite Hu, IH. by rewrite <- app_assoc.
Qed.

Lemma read_line_returns validator msg keys shown t rest shown' :
  read_line validator msg keys shown = (Return t, rest, shown') ->
  exists refused,
    keys = (Line <$> refused) ++ Line t :: rest /\
    Forall (fun u => validator u = false) refused /\
    validator t = true /\
    shown' = shown ++ replicate (length refused) (Rejected msg).
Proof.
  revert shown. induction keys as [|k keys IH]; intros shown; simpl; [discriminate|].
  destruct k as [u| |]; [|discriminate..].
  destruct (validator u) eqn:V.
  - intros [= -> -> <-]. exists []. simpl. by rewrite app_nil_r.
  - intros H. apply IH in H as (refused & -> & F & Vt & ->).
    exists (u :: refused). simpl. rewrite <- app_assoc. by repeat split; [constructor|..].
Qed.

Lemma bind_ext {A B} (m : M A) (k1 k2 : A -> M B) st :
  (forall a s, k1 a s = k2 a s) -> bind m k1 st = bind m k2 st.
Proof. intros H. unfold bind. destruct (m st) as [[a|e|c|] s]; auto. Qed.

(** What [ask] does, read off the keys: the hint and the prompt are shown,
    the prompt loop runs, and the accepted line is converted. *)
Lemma ask_spec f st :
  ask f st =
  let '(r, rest, shown) :=
    read_line (validator_of f) (error_of f) (stdin st)
      (trace st ++ hint_of f ++ [Prompted (key_of f)]) in
  (match r with
   | Return t => match entered f t with
                 | Some v => Return v
                 | None => Raise ValueError
                 end
   | Raise e => Raise e
   | Exit c => Exit c
   | Blocked => Blocked
   end,
   mkState (self st) (config_file st) rest shown).
Proof.
  destruct st as [o fl ks tr].
  destruct f; cbv [ask bind print emit ret session_prompt hint_of key_of
                   self config_file stdin trace];
    rewrite <- ?app_assoc; cbn [app];
    destruct (read_line _ _ _ _) as [[[t|e|c|] rest] shown]; try reflexivity;
    destruct (entered _ t); reflexivity.
Qed.

Lemma bind_ret_l {A B} (a : A) (k : A -> M B) st : bind (ret a) k st = k a st.
Proof. reflexivity. Qed.

(** A getter, by cases on the membership test. *)
Lemma getter_unfold f fu st :
  getter_of f fu st =
  match py_contains (key_of f) (as_dict (self st)) st with
  | (Return present, _) =>
      if present && negb fu then py_getitem (as_dict (self st)) (key_of f) st
      else ask f st
  | (r, _) => (carry r, st)
  end.
Proof.
  destruct f;
    cbv [getter_of _get_api_id _get_api_hash _get_bot_token _get_phone_number key_of];
    unfold bind at 1; cbv [get_as_dict]; unfold bind at 1;
    destruct (as_dict (self st)); cbv [py_contains ret raise carry]; try reflexivity;
    match goal with |- context [if ?b then _ else _] => destruct b end;
    try reflexivity;
    cbv [ask key_of validator_of error_of entered]; rewrite ?bind_ret_l;
    repeat (apply bind_ext; intros ? ?);
    try reflexivity;
    destruct (Text.int _); reflexivity.
Qed.

Lemma getter_ask_dict f fu st (d : gmap string pyval) :
  as_dict (self st) = PDict d ->
  fu = true \/ d !! key_of f = None ->
  getter_of f fu st = ask f st.
Proof.
  intros Hd Hask. rewrite getter_unfold, Hd. cbv [py_contains ret].
  assert (Hb : bool_decide (is_Some (d !! key_of f)) && negb fu = false).
  { destruct Hask as [->|Hn]; [apply andb_false_r|].
    rewrite Hn. rewrite bool_decide_eq_false_2; [done|]. by intros [? ?]. }
  by rewrite Hb.
Qed.

Lemma bind_stop {A B} (m : M A) (k : A -> M B) st r st' :
  m st = (r, st') -> returned r = false -> bind m k st = (carry r, st').
Proof. intros E Hr. unfold bind. rewrite E. by destruct r. Qed.

(** A getter that asks and returns: the lines before the accepted one were
    all refused, each with the error message. *)
Lemma ask_returns f st v st' :
  ask f st = (Return v, st') ->
  exists refused t,
    stdin st = (Line <$> refused) ++ Line t :: stdin st' /\
    Forall (fun u => validator_of f u = false) refused /\
    validator_of f t = true /\
    entered f t = Some v /\
    trace st' = trace st ++ hint_of f ++
                Prompted (key_of f) :: replicate (length refused) (Rejected (error_of f)) /\
    self st' = self st /\ config_file st' = config_file st.
Proof.
  rewrite ask_spec.
  destruct (read_line _ _ _ _) as [[r rest] shown] eqn:R.
  destruct r as [t|e|c|]; try discriminate.
  destruct (entered f t) as [w|] eqn:En; [|discriminate].
  intros [= <- <-]. cbn [stdin trace self config_file].
  apply read_line_returns in R as (refused & K & F & V & ->).
  exists refused, t. rewrite <- !app_assoc. by repeat split.
Qed.

Lemma ask_refused f st (refused : list string) :
  stdin st = Line <$> refused ->
  Forall (fun u => validator_of f u = false) refused ->
  ask f st =
  (Blocked,
   mkState (self st) (config_file st) []
     (trace st ++ hint_of f ++
      Prompted (key_of f) :: replicate (length refused) (Rejected (error_of f)))).
Proof.
  intros K F. rewrite ask_spec, K.
  rewrite <- (app_nil_r (Line <$> refused)), (read_line_refused _ _ _ _ _ F).
  cbn [read_line]. by rewrite <- !app_assoc.
Qed.


(** What the getters return for a line they took. *)
Lemma entered_well_formed f t v :
  validator_of f t = true ->
  entered f t = Some v ->
  match f with
  | Api_id => exists n, v = PInt n /\ 0 <= n
  | Api_hash | Bot_token =>
      exists s, v = PStr s /\ s <> EmptyString /\ Text.strip s = s
  | Phone_number =>
      exists s, v = PStr s /\ phone_shape s /\ Text.strip s = s
  end.
Proof.
  destruct f; cbv [validator_of entered]; intros V E.
  - rewrite (int_digits t V) in E. unfold Text.limited_value in E.
    destruct (Text.digit_count t <=? Text.max_str_digits); [|discriminate].
    destruct (Text.digits_value 0 false t) as [n|] eqn:D; [|discriminate].
    injection E as <-. exists n. split; [done|].
    by apply (digits_value_nonneg t 0 false n).
  - injection E as <-. exists (Text.strip t). split; [done|]. split; [|apply strip_idem].
    intros H. by rewrite H in V.
  - injection E as <-. exists (Text.strip t). split; [done|]. split; [|apply strip_idem].
    intros H. by rewrite H in V.
  - injection E as <-. exists (Text.strip t). split; [done|]. split; [|apply strip_idem].
    by apply phone_validator_shape.
Qed.

(** ** What a getter does to the state *)

Lemma ask_effects f st r st' :
  ask f st = (r, st') ->
  self st' = self st /\ config_file st' = config_file st /\
  exists n, trace st' = trace st ++ hint_of f ++
                        Prompted (key_of f) :: replicate n (Rejected (error_of f)).
Proof.
  rewrite ask_spec.
  destruct (read_line _ _ _ _) as [[r0 rest] shown] eqn:R.
  intros [= _ <-]. cbn [self config_file trace].
  apply read_line_spec in R as [_ (n & ->)].
  repeat split. exists n. by rewrite <- !app_assoc.
Qed.

Lemma py_contains_still k v st r st' : py_contains k v st = (r, st') -> st' = st.
Proof. destruct v; cbv [py_contains ret raise]; by intros [= _ <-]. Qed.

Lemma py_getitem_still v k st r st' : py_getitem v k st = (r, st') -> st' = st.
Proof.
  destruct v; cbv [py_getitem ret raise]; try by intros [= _ <-].
  destruct (d !! k); by intros [= _ <-].
Qed.

(** Whatever the loaded value is, a getter either leaves the state as it is
    (a stored value, or an exception of the membership test or of the
    subscript) or asks. *)
Lemma getter_effects f fu st r st' :
  getter_of f fu st = (r, st') ->
  st' = st \/ ask f st = (r, st').
Proof.
  rewrite getter_unfold.
  destruct (py_contains _ _ st) as [[present|e|c|] s] eqn:C;
    try (intros [= _ <-]; by left).
  destruct (present && negb fu).
  - intros H. left. by apply py_getitem_still in H.
  - by right.
Qed.

(** ** The prompts of a run *)

Lemma prompts_app l1 l2 : prompts (l1 ++ l2) = prompts l1 ++ prompts l2.
Proof. apply omap_app. Qed.

Lemma prompts_rejected n msg : prompts (replicate n (Rejected msg)) = [].
Proof. induction n as [|n IH]; [reflexivity|exact IH]. Qed.

Lemma prompts_asked f n :
  prompts (hint_of f ++ Prompted (key_of f) :: replicate n (Rejected (error_of f)))
  = [key_of f].
Proof.
  rewrite prompts_app.
  change (Prompted (key_of f) :: ?l) with ([Prompted (key_of f)] ++ l).
  rewrite prompts_app, prompts_rejected. by destruct f.
Qed.

Lemma adds_still {A} (m : M A) :
  (forall st r st', m st = (r, st') -> trace st' = trace st) -> adds [] m.
Proof.
  intros H st r st' E. exists []. rewrite app_nil_r. split; [by eapply H|done].
Qed.

Lemma adds_mono {A} ks ks' (m : M A) : ks `sublist_of` ks' -> adds ks m -> adds ks' m.
Proof.
  intros S H st r st' E. destruct (H _ _ _ E) as (shown & T & P).
  exists shown. split; [done|]. by etrans.
Qed.

Lemma adds_bind {A B} ks1 ks2 (m : M A) (k : A -> M B) :
  adds ks1 m -> (forall a, adds ks2 (k a)) -> adds (ks1 ++ ks2) (bind m k).
Proof.
  intros Hm Hk st r st' E.
  apply bind_inv in E as [(a & st1 & E1 & E2)|(r0 & E1 & _ & _)].
  - destruct (Hm _ _ _ E1) as (s1 & T1 & P1). destruct (Hk a _ _ _ E2) as (s2 & T2 & P2).
    exists (s1 ++ s2). split; [by rewrite T2, T1, app_assoc|].
    rewrite prompts_app. by apply sublist_app.
  - destruct (Hm _ _ _ E1) as (s1 & T1 & P1). exists s1. split; [done|].
    etrans; [exact P1|]. by apply sublist_inserts_r.
Qed.

Lemma adds_try_except {A} ks (body : M A) caught (handler : M A) :
  adds ks body -> adds [] handler -> adds ks (try_except body caught handler).
Proof.
  intros Hb Hh st r st' E. unfold try_except in E.
  destruct (body st) as [r0 st1] eqn:E0.
  destruct (Hb _ _ _ E0) as (s1 & T1 & P1).
  destruct r0 as [a|e|c|]; try (injection E as <- <-; by exists s1).
  destruct (caught e); [|injection E as <- <-; by exists s1].
  destruct (Hh _ _ _ E) as (s2 & T2 & P2). exists (s1 ++ s2).
  split; [by rewrite T2, T1, app_assoc|].
  rewrite prompts_app. apply sublist_nil_r in P2. rewrite P2. by rewrite app_nil_r.
Qed.

Lemma adds_update_self f : adds [] (update_self f).
Proof. apply adds_still. by intros st r st' [= _ <-]. Qed.

Lemma adds_getter f fu : adds [key_of f] (getter_of f fu).
Proof.
  intros st r st' E. apply getter_effects in E as [->|E].
  - exists []. rewrite app_nil_r. split; [done|]. apply sublist_nil_l.
  - apply ask_effects in E as (_ & _ & n & ->). eexists. split; [reflexivity|].
    by rewrite prompts_asked.
Qed.

Lemma adds_field (flag : bool) f fu (set : pyval -> M unit) :
  (forall v, adds [] (set v)) ->
  adds (if flag then [key_of f] else []) (when flag (v <- getter_of f fu ;; set v)).
Proof.
  intros Hs. destruct flag; simpl.
  - rewrite <- (app_nil_r [key_of f]). apply adds_bind; [apply adds_getter|done].
  - apply adds_still. by intros st r st' [= _ <-].
Qed.

Lemma adds_resolve rb ra rh rp fu :
  adds (requested rb ra rh rp) (resolve rb ra rh rp fu).
Proof.
  unfold resolve, requested. apply adds_try_except.
  - apply adds_bind; [apply (adds_field ra Api_id); intros; apply adds_update_self|intros _].
    apply adds_bind; [apply (adds_field rh Api_hash); intros; apply adds_update_self|intros _].
    apply adds_bind; [apply (adds_field rb Bot_token); intros; apply adds_update_self|intros _].
    apply (adds_field rp Phone_number); intros; apply adds_update_self.
  - change [] with (@nil string ++ []). apply adds_bind.
    + intros st r st' [= _ <-]. exists [Printed cancel_notice]. by split.
    + intros _. apply adds_still. by intros st r st' [= _ <-].
Qed.

Lemma adds_save : adds [] save.
Proof.
  intros st r st' E.
  apply save_spec in E as [(a & h & b & _ & _ & _ & _ & ->)|(name & _ & ->)].
  - eexists. split; [reflexivity|]. done.
  - exists []. by rewrite app_nil_r.
Qed.

Lemma prompts_of_run rb ra rh rp fu file keys :
  prompts (trace (Config rb ra rh rp fu file keys).2) `sublist_of` requested rb ra rh rp.
Proof.
  destruct (Config rb ra rh rp fu file keys) as [r st] eqn:E. cbn [snd].
  destruct (load_exn file) as [e|] eqn:L.
  { rewrite (Config_load_fails _ _ _ _ _ _ _ e L) in E. injection E as _ <-.
    cbn [after_load trace]. apply sublist_nil_l. }
  rewrite Config_unfold in E by done.
  assert (A : adds (requested rb ra rh rp ++ []) (resolve rb ra rh rp fu ;;; save)).
  { apply adds_bind; [apply adds_resolve|intros _; apply adds_save]. }
  destruct (A _ _ _ E) as (shown & T & P). cbn [after_load trace] in T.
  rewrite T. simpl. by rewrite app_nil_r in P.
Qed.

(** ** How a run can end *)

Lemma only_bind {A B} P (m : M A) (k : A -> M B) :
  only P m -> (forall a, only P (k a)) -> only P (bind m k).
Proof.
  intros Hm Hk st r st' E.
  apply bind_inv in E as [(a & st1 & _ & E2)|(r0 & E1 & Hr & ->)].
  - by apply Hk in E2.
  - apply Hm in E1. by destruct r0.
Qed.

Lemma only_when P b m : only P m -> only P (when b m).
Proof. destruct b; [done|]. by intros _ st r st' [= <- _]. Qed.

Lemma only_try_except {A} (P Q : exn -> Prop) (body : M A) caught (handler : M A) :
  only Q body -> (forall e, Q e -> caught e = false -> P e) -> only P handler ->
  only P (try_except body caught handler).
Proof.
  intros Hb HQ Hh st r st' E. unfold try_except in E.
  destruct (body st) as [r0 st1] eqn:E0. apply Hb in E0.
  destruct r0 as [a|e|c|]; try (by injection E as <- _).
  destruct (caught e) eqn:C; [by apply Hh in E|].
  injection E as <- _. by apply HQ.
Qed.

Lemma only_update_self P f : only P (update_self f).
Proof. by intros st r st' [= <- _]. Qed.

Lemma read_line_outcome validator msg keys shown r rest shown' :
  read_line validator msg keys shown = (r, rest, shown') ->
  match r with
  | Raise e => e = KeyboardInterrupt \/ e = EOFError
  | Exit _ => False
  | Return _ | Blocked => True
  end.
Proof.
  revert shown. induction keys as [|[t| |] keys IH]; intros shown; simpl.
  - by intros [= <- _ _].
  - destruct (validator t); [by intros [= <- _ _]|apply IH].
  - intros [= <- _ _]. by left.
  - intros [= <- _ _]. by right.
Qed.

Lemma only_getter f fu : only getter_exn (getter_of f fu).
Proof.
  intros st r st'. rewrite getter_unfold.
  destruct (as_dict (self st)) as [| | | | s|l|d]; cbv [py_contains ret raise carry];
    try (intros [= <- _]; by left).
  all: match goal with |- context [if ?b && _ then _ else _] => destruct b eqn:B end;
    destruct fu; cbv [andb negb py_getitem raise];
    try (intros [= <- _]; by left).
  all: try (apply bool_decide_eq_true_1 in B as [v B]; rewrite B; by intros [= <- _]).
  all: rewrite ask_spec;
    destruct (read_line _ _ _ _) as [[r0 rest] shown] eqn:R;
    apply read_line_outcome in R; intros [= <- _];
    destruct r0 as [t|e|c|]; try done;
    [destruct (entered f t); [done|by right; left]
    |destruct R as [->| ->]; [by right; right; left|by right; right; right]].
Qed.

Lemma only_resolve rb ra rh rp fu : only resolve_exn (resolve rb ra rh rp fu).
Proof.
  unfold resolve. apply (only_try_except resolve_exn getter_exn).
  - pose proof (only_getter Api_id fu). pose proof (only_getter Api_hash fu).
    pose proof (only_getter Bot_token fu). pose proof (only_getter Phone_number fu).
    repeat (apply only_bind; [|intros ?]);
      try (apply only_when; apply only_bind; [assumption|intros ?]);
      apply only_update_self.
  - intros e [->|[->|[->| ->]]]; [by left|by right; left|discriminate|by right; right].
  - intros st r st' [= <- _]. reflexivity.
Qed.

Lemma resolve_from_file_raises rb ra rh rp fu file keys r st :
  resolve_from_file rb ra rh rp fu file keys = (r, st) ->
  match r with
  | Raise e => resolve_exn e \/ load_exn file = Some e
  | Exit c => c = 0
  | Return _ | Blocked => True
  end.
Proof.
  unfold resolve_from_file. destruct (load_exn file) as [e|].
  - intros [= <- _]. by right.
  - intros R. apply only_resolve in R. destruct r; try done. by left.
Qed.

Lemma load_exn_range file e :
  load_exn file = Some e ->
  e = UnicodeDecodeError \/ e = ValueError \/ e = OSError \/ e = RecursionError.
Proof. destruct file as [[| | | | |v]|]; intros [= <-]; auto. Qed.

Lemma run_raises rb ra rh rp fu file keys :
  match (Config rb ra rh rp fu file keys).1 with
  | Raise e =>
      resolve_exn e \/ load_exn file = Some e \/ exists name, e = AttributeError name
  | Exit c => c = 0
  | Return _ | Blocked => True
  end.
Proof.
  destruct (Config rb ra rh rp fu file keys) as [r st] eqn:E. cbn [fst].
  apply Config_spec in E as (r1 & st1 & R & HS).
  apply resolve_from_file_raises in R.
  destruct HS as [[-> S]|(Hr & -> & _)].
  - apply save_spec in S as [(a & h & b & _ & _ & _ & -> & _)|(name & -> & _)]; [done|].
    right; right. by exists name.
  - destruct r1 as [a|e|c|]; try done. cbn [carry].
    destruct R as [?|?]; [by left|by right; left].
Qed.

(** ** The attributes after resolution *)

Lemma keeps_field proj (flag : bool) f fu (set : pyval -> M unit) :
  (forall v, keeps proj (set v)) ->
  keeps proj (when flag (v <- getter_of f fu ;; set v)).
Proof.
  intros Hs. apply keeps_when. apply keeps_bind; [apply keeps_getter|done].
Qed.

Lemma resolve_returns rb ra rh rp fu st st' :
  resolve rb ra rh rp fu st = (Return tt, st') ->
  exists s1 s2 s3,
    when ra (v <- getter_of Api_id fu ;; set_api_id v) st = (Return tt, s1) /\
    when rh (v <- getter_of Api_hash fu ;; set_api_hash v) s1 = (Return tt, s2) /\
    when rb (v <- getter_of Bot_token fu ;; set_bot_token v) s2 = (Return tt, s3) /\
    when rp (v <- getter_of Phone_number fu ;; set_phone_number v) s3 = (Return tt, st').
Proof.
  unfold resolve, try_except. destruct (bind _ _ st) as [r0 s] eqn:E.
  destruct r0 as [[]|e|c|]; try discriminate.
  2:{ destruct e; discriminate. }
  intros [= <-].
  apply bind_inv in E as [([] & s1 & E1 & E)|(r0 & _ & Hr & Hc)];
    [|destruct r0; discriminate].
  apply bind_inv in E as [([] & s2 & E2 & E)|(r0 & _ & Hr & Hc)];
    [|destruct r0; discriminate].
  apply bind_inv in E as [([] & s3 & E3 & E)|(r0 & _ & Hr & Hc)];
    [|destruct r0; discriminate].
  by exists s1, s2, s3.
Qed.

Lemma field_assigned f fu (set : pyval -> M unit) proj st st' :
  (forall v s r s', set v s = (r, s') -> proj (self s') = Some v) ->
  when true (v <- getter_of f fu ;; set v) st = (Return tt, st') ->
  is_Some (proj (self st')).
Proof.
  intros Hs E. cbv [when] in E.
  apply bind_inv in E as [(v & s1 & _ & E)|(r0 & _ & Hr & Hc)];
    [|destruct r0; discriminate].
  apply Hs in E. by exists v.
Qed.

(** A requested field is assigned when resolution returns, an unrequested
    one is as it was. *)
Lemma resolve_assigns rb ra rh rp fu st st' :
  resolve rb ra rh rp fu st = (Return tt, st') ->
  (if ra then is_Some (api_id (self st')) else api_id (self st') = api_id (self st)) /\
  (if rh then is_Some (api_hash (self st')) else api_hash (self st') = api_hash (self st)) /\
  (if rb then is_Some (bot_token (self st')) else bot_token (self st') = bot_token (self st)) /\
  (if rp then is_Some (phone_number (self st'))
   else phone_number (self st') = phone_number (self st)).
Proof.
  intros E. pose proof (resolve_returns _ _ _ _ _ _ _ E) as (s1 & s2 & s3 & E1 & E2 & E3 & E4).
  assert (K1 : forall proj, (forall v, keeps proj (set_api_id v)) ->
                 proj (self s1) = proj (self st)).
  { intros proj H. by apply (keeps_field proj ra Api_id fu set_api_id H _ _ _ E1). }
  assert (K2 : forall proj, (forall v, keeps proj (set_api_hash v)) ->
                 proj (self s2) = proj (self s1)).
  { intros proj H. by apply (keeps_field proj rh Api_hash fu set_api_hash H _ _ _ E2). }
  assert (K3 : forall proj, (forall v, keeps proj (set_bot_token v)) ->
                 proj (self s3) = proj (self s2)).
  { intros proj H. by apply (keeps_field proj rb Bot_token fu set_bot_token H _ _ _ E3). }
  assert (K4 : forall proj, (forall v, keeps proj (set_phone_number v)) ->
                 proj (self st') = proj (self s3)).
  { intros proj H. by apply (keeps_field proj rp Phone_number fu set_phone_number H _ _ _ E4). }
  assert (U : forall proj f, (forall o, proj (f o) = proj o) -> keeps proj (update_self f)).
  { intros. by apply keeps_update_self. }
  repeat split.
  - rewrite (K4 api_id), (K3 api_id), (K2 api_id) by (intros; by apply U).
    destruct ra.
    + eapply (field_assigned Api_id fu set_api_id api_id); [|exact E1].
      by intros v s r s' [= _ <-].
    + injection E1 as <-. reflexivity.
  - rewrite (K4 api_hash), (K3 api_hash) by (intros; by apply U).
    destruct rh.
    + eapply (field_assigned Api_hash fu set_api_hash api_hash); [|exact E2].
      by intros v s r s' [= _ <-].
    + injection E2 as <-. by rewrite (K1 api_hash) by (intros; by apply U).
  - rewrite (K4 bot_token) by (intros; by apply U).
    destruct rb.
    + eapply (field_assigned Bot_token fu set_bot_token bot_token); [|exact E3].
      by intros v s r s' [= _ <-].
    + injection E3 as <-.
      by rewrite (K2 bot_token), (K1 bot_token) by (intros; by apply U).
  - destruct rp.
    + eapply (field_assigned Phone_number fu set_phone_number phone_number); [|exact E4].
      by intros v s r s' [= _ <-].
    + injection E4 as <-.
      by rewrite (K3 phone_number), (K2 phone_number), (K1 phone_number)
        by (intros; by apply U).
Qed.

(** ** Runs that return, and runs that cannot *)

Lemma run_returned rb ra rh rp fu file keys st :
  Config rb ra rh rp fu file keys = (Return tt, st) ->
  exists a h b,
    api_id (self st) = Some a /\ api_hash (self st) = Some h /\
    bot_token (self st) = Some b /\
    as_dict (self st) = PDict (record_of a h b) /\
    config_file st = Some (Json (PDict (record_of a h b))) /\
    (if rp then is_Some (phone_number (self st)) else phone_number (self st) = None).
Proof.
  intros E. apply Config_spec in E as (r1 & st1 & R & HS).
  destruct HS as [[-> S]|(Hr & Hc & _)]; [|destruct r1; discriminate].
  apply resolve_from_file_returned in R as [_ R].
  apply resolve_assigns in R as (_ & _ & _ & P).
  apply save_spec in S as [(a & h & b & _ & _ & _ & _ & ->)|(name & ? & _)]; [|discriminate].
  exists a, h, b. cbn [saved self api_id api_hash bot_token as_dict config_file phone_number].
  by repeat split.
Qed.

Lemma run_without_a_saved_field rb ra rh rp fu file keys :
  ra && rh && rb = false ->
  (Config rb ra rh rp fu file keys).1 <> Return tt /\
  config_file (Config rb ra rh rp fu file keys).2 = file /\
  forall v, Wrote v ∉ trace (Config rb ra rh rp fu file keys).2.
Proof.
  intros F. destruct (Config rb ra rh rp fu file keys) as [r st] eqn:E. cbn [fst snd].
  assert (N : r <> Return tt).
  { intros ->. apply returning_run_requested_all in E as (-> & -> & ->). discriminate. }
  split; [done|].
  apply Config_spec in E as (r1 & st1 & R & HS).
  apply resolve_from_file_spec in R as (Fl & W & _). cbn [after_load config_file trace] in Fl, W.
  assert (W1 : forall v, Wrote v ∉ trace st1).
  { intros v HV. apply W in HV. inversion HV. }
  destruct HS as [[-> S]|(_ & _ & ->)]; [|done].
  apply save_spec in S as [(a & h & b & _ & _ & _ & -> & _)|(name & _ & ->)]; done.
Qed.

Lemma save_with_attributes st a h b :
  api_id (self st) = Some a -> api_hash (self st) = Some h ->
  bot_token (self st) = Some b ->
  save st = (Return tt, saved st a h b).
Proof.
  destruct st as [[d oa oh ob p] f k t]. cbn [self api_id api_hash bot_token].
  intros -> -> ->. reflexivity.
Qed.

Lemma run_with_saved_fields rp fu file keys name :
  (Config true true true rp fu file keys).1 <> Raise (AttributeError name).
Proof.
  destruct (Config true true true rp fu file keys) as [r st] eqn:E. cbn [fst].
  apply Config_spec in E as (r1 & st1 & R & HS).
  destruct HS as [[-> S]|(Hr & -> & _)].
  - apply resolve_from_file_returned in R as [_ R].
    apply resolve_assigns in R as ([a Ha] & [h Hh] & [b Hb] & _).
    rewrite (save_with_attributes st1 a h b Ha Hh Hb) in S. by injection S as <- _.
  - apply resolve_from_file_raises in R. destruct r1 as [x|e|c|]; try done.
    cbn [carry]. intros [= ->]. destruct R as [[?|[?|?]]|L]; try discriminate.
    apply load_exn_range in L as [?|[?|[?|?]]]; discriminate.
Qed.

(** ** The callers *)

Lemma caller_reads a h b st :
  api_id (self st) = Some a -> api_hash (self st) = Some h ->
  bot_token (self st) = Some b ->
  (x <- getattr "api_id" api_id ;; y <- getattr "api_hash" api_hash ;;
   z <- getattr "bot_token" bot_token ;; ret (x, y, z)) st
  = (Return (a, h, b), st).
Proof. intros Ha Hh Hb. cbv [bind getattr ret]. by rewrite Ha, Hh, Hb. Qed.

Lemma example_outcome file keys :
  match pyrogram_example (start file keys) with
  | (Return (a, h, b), st) =>
      Config true true true false false file keys = (Return tt, st) /\
      api_id (self st) = Some a /\ api_hash (self st) = Some h /\
      bot_token (self st) = Some b /\
      config_file st = Some (Json (PDict (record_of a h b)))
  | (Raise e, _) => forall name, e <> AttributeError name
  | (Exit _, _) | (Blocked, _) => True
  end.
Proof.
  unfold pyrogram_example.
  change (__init__ true true true false false) with
    (fun st => __init__ true true true false false st).
  unfold bind at 1.
  change (__init__ true true true false false (start file keys)) with
    (Config true true true false false file keys).
  pose proof (fun name => run_with_saved_fields false false file keys name) as NA.
  destruct (Config true true true false false file keys) as [r st] eqn:E.
  cbn [fst] in NA.
  destruct r as [[]|e|c|]; [| |done..].
  - destruct (run_returned _ _ _ _ _ _ _ _ E) as (a & h & b & Ha & Hh & Hb & _ & Hf & _).
    rewrite (caller_reads a h b st Ha Hh Hb). by repeat split.
  - intros name ->. by destruct (NA name).
Qed.

Lemma bot_example_outcome file keys :
  returned (python_telegram_bot_example (start file keys)).1 = false /\
  config_file (python_telegram_bot_example (start file keys)).2 = file.
Proof.
  unfold python_telegram_bot_example.
  change (__init__ true false false false false) with
    (fun st => __init__ true false false false false st).
  unfold bind.
  change (__init__ true false false false false (start file keys)) with
    (Config true false false false false file keys).
  destruct (run_without_a_saved_field true false false false false file keys eq_refl)
    as (N & F & _).
  destruct (Config true false false false false file keys) as [r st].
  cbn [fst snd] in N, F. destruct r as [[]|e|c|]; by cbn [fst snd returned].
Qed.

(** ** Lines that are taken, values that are kept *)






Lemma superscript_run rb rh rp fu file (d : gmap string pyval) t rest :
  load_exn file = None ->
  loaded file = PDict d ->
  fu = true \/ d !! "api_id" = None ->
  Text.isdigit t = true ->
  Text.all_chars Text.isdecimal_char t = false ->
  Config rb true rh rp fu file (Line t :: rest)
  = (Raise ValueError,
     mkState (mkObject (PDict d) None None None None) file rest
       [Printed tip; Prompted "api_id"]).
Proof.
  intros Lx L Hask D N.
  rewrite Config_unfold by done. cbv [after_load resolve]. rewrite L.
  unfold bind at 1. unfold try_except.
  assert (G : getter_of Api_id fu
                (mkState (mkObject (PDict d) None None None None) file (Line t :: rest) [])
              = (Raise ValueError,
                 mkState (mkObject (PDict d) None None None None) file rest
                   [Printed tip; Prompted "api_id"])).
  { rewrite (getter_ask_dict Api_id fu
               (mkState (mkObject (PDict d) None None None None) file (Line t :: rest) [])
               d eq_refl Hask), ask_spec.
    cbn [stdin read_line validator_of]. rewrite D. cbv [entered].
    rewrite (int_digits t D). unfold Text.limited_value.
    destruct (isdigit_all t D) as [A _].
    rewrite (digits_value_superscript t 0 false A N).
    by destruct (Text.digit_count t <=? Text.max_str_digits). }
  erewrite (bind_stop _ _ _ (Raise ValueError));
    [reflexivity| |reflexivity].
  cbv [when]. by apply (bind_stop _ _ _ (Raise ValueError)).
Qed.

(** * Further properties *)

(** X1.  A getter that has no stored value to reuse (or is forced) and
    returns took its value from the first line its validator accepts: every
    line typed before it was refused and answered by the error message of
    the field, shown after the hint and the prompt; the keys after it are
    left unread, and neither the attributes nor the file changed. *)
Theorem getter_returns_the_first_accepted_line f fu st (d : gmap string pyval) v st' :
  as_dict (self st) = PDict d ->
  fu = true \/ d !! key_of f = None ->
  getter_of f fu st = (Return v, st') ->
  exists refused t,
    stdin st = (Line <$> refused) ++ Line t :: stdin st' /\
    Forall (fun u => validator_of f u = false) refused /\
    validator_of f t = true /\
    entered f t = Some v /\
    trace st' = trace st ++ hint_of f ++
                Prompted (key_of f) :: replicate (length refused) (Rejected (error_of f)) /\
    self st' = self st /\ config_file st' = config_file st.
Proof.
  intros Hd Hask E. rewrite (getter_ask_dict f fu st d Hd Hask) in E.
  by apply ask_returns.
Qed.

Lemma getter_returns_the_first_accepted_line_witness :
  exists refused t,
    [Line "abc"; Line " 5 "; Line "98765"; Line "next"] =
      (Line <$> refused) ++ Line t :: [Line "next"] /\
    Forall (fun u => validator_of Api_id u = false) refused /\
    validator_of Api_id t = true /\
    entered Api_id t = Some (PInt 98765) /\
    [Printed tip; Prompted "api_id"; Rejected api_id_error; Rejected api_id_error] =
      [] ++ hint_of Api_id ++
      Prompted (key_of Api_id) :: replicate (length refused) (Rejected (error_of Api_id)) /\
    mkObject (PDict ∅) None None None None = mkObject (PDict ∅) None None None None /\
    @None content = None.
Proof.
  apply (getter_returns_the_first_accepted_line Api_id false
           (after_load None [Line "abc"; Line " 5 "; Line "98765"; Line "next"]) ∅
           (PInt 98765)
           (mkState (mkObject (PDict ∅) None None None None) None [Line "next"]
              [Printed tip; Prompted "api_id"; Rejected api_id_error;
               Rejected api_id_error])).
  - reflexivity.
  - right. reflexivity.
  - vm_compute. reflexivity.
Defined.

(** X2.  As long as every line typed is refused, the prompt stays open: the
    getter is still waiting, all keys are read, and the terminal shows the
    hint, the prompt and one error message for every line. *)
Theorem refused_lines_keep_the_prompt_open f fu st (d : gmap string pyval)
    (refused : list string) :
  as_dict (self st) = PDict d ->
  fu = true \/ d !! key_of f = None ->
  stdin st = Line <$> refused ->
  Forall (fun u => validator_of f u = false) refused ->
  getter_of f fu st =
  (Blocked,
   mkState (self st) (config_file st) []
     (trace st ++ hint_of f ++
      Prompted (key_of f) :: replicate (length refused) (Rejected (error_of f)))).
Proof.
  intros Hd Hask K F. rewrite (getter_ask_dict f fu st d Hd Hask).
  by apply ask_refused.
Qed.

Lemma refused_lines_keep_the_prompt_open_witness :
  getter_of Phone_number true
    (after_load (Some (Json (PDict {["phone_number" := PStr "+15551234567"]})))
       (Line <$> ["123"; "0123456789"; "+1 555 123"]))
  = (Blocked,
     mkState (mkObject (PDict {["phone_number" := PStr "+15551234567"]})
                None None None None)
       (Some (Json (PDict {["phone_number" := PStr "+15551234567"]}))) []
       ([] ++ hint_of Phone_number ++
        Prompted (key_of Phone_number) ::
        replicate (length ["123"; "0123456789"; "+1 555 123"]%string)
          (Rejected (error_of Phone_number)))).
Proof.
  apply (refused_lines_keep_the_prompt_open Phone_number true
           (after_load (Some (Json (PDict {["phone_number" := PStr "+15551234567"]})))
              (Line <$> ["123"; "0123456789"; "+1 555 123"]))
           {["phone_number" := PStr "+15551234567"]}).
  - reflexivity.
  - left. reflexivity.
  - reflexivity.
  - repeat constructor.
Defined.

(** X3.  What a getter returns for a line it took is well formed: the API
    ID is a non-negative integer; the API hash and the bot token are
    non-empty strings without white space at either end; the phone number
    is such a string with the shape of the pattern. *)
Theorem entered_values_are_well_formed f fu st (d : gmap string pyval) v st' :
  as_dict (self st) = PDict d ->
  fu = true \/ d !! key_of f = None ->
  getter_of f fu st = (Return v, st') ->
  match f with
  | Api_id => exists n, v = PInt n /\ 0 <= n
  | Api_hash | Bot_token =>
      exists s, v = PStr s /\ s <> EmptyString /\ Text.strip s = s
  | Phone_number =>
      exists s, v = PStr s /\ phone_shape s /\ Text.strip s = s
  end.
Proof.
  intros Hd Hask E. rewrite (getter_ask_dict f fu st d Hd Hask) in E.
  apply ask_returns in E as (refused & t & _ & _ & V & En & _).
  by apply (entered_well_formed f t v).
Qed.

Lemma entered_values_are_well_formed_witness :
  exists s, PStr "+15551234567" = PStr s /\ phone_shape s /\ Text.strip s = s.
Proof.
  apply (entered_values_are_well_formed Phone_number false
           (after_load None [Line "  +15551234567 "]) ∅ (PStr "+15551234567")
           (mkState (mkObject (PDict ∅) None None None None) None []
              [Prompted "phone_number"])).
  - reflexivity.
  - right. reflexivity.
  - vm_compute. reflexivity.
Defined.

(** X4.  The phone validator takes a line exactly when, white space at its
    ends apart, it is an optional plus followed by 7 to 15 decimal digits of
    which the first is not 0. *)
Theorem phone_validator_accepts_the_shape t :
  validator_of Phone_number t = true <-> phone_shape (Text.strip t).
Proof. apply phone_validator_shape. Qed.

(** X5.  A run prompts only for requested fields, for each at most once,
    and in the order api_id, api_hash, bot_token, phone_number. *)
Theorem prompts_follow_the_fixed_order rb ra rh rp fu file keys :
  prompts (trace (Config rb ra rh rp fu file keys).2) `sublist_of` requested rb ra rh rp.
Proof. apply prompts_of_run. Qed.

(** X6.  A run that does not request all of api_id, api_hash and bot_token
    never returns and never writes: the file is as it was before. *)
Theorem run_without_a_saved_field_writes_nothing rb ra rh rp fu file keys :
  ra && rh && rb = false ->
  (Config rb ra rh rp fu file keys).1 <> Return tt /\
  config_file (Config rb ra rh rp fu file keys).2 = file /\
  forall v, Wrote v ∉ trace (Config rb ra rh rp fu file keys).2.
Proof. apply run_without_a_saved_field. Qed.

Lemma run_without_a_saved_field_writes_nothing_witness :
  (Config true true false true false (Some (Json (PDict {["api_hash" := PStr "h"]})))
     [Line "1"; Line "t"; Line "+15551234567"]).1 <> Return tt /\
  config_file
    (Config true true false true false (Some (Json (PDict {["api_hash" := PStr "h"]})))
       [Line "1"; Line "t"; Line "+15551234567"]).2
  = Some (Json (PDict {["api_hash" := PStr "h"]})) /\
  forall v,
    Wrote v ∉ trace
      (Config true true false true false (Some (Json (PDict {["api_hash" := PStr "h"]})))
         [Line "1"; Line "t"; Line "+15551234567"]).2.
Proof.
  exact (run_without_a_saved_field_writes_nothing true true false true false
           (Some (Json (PDict {["api_hash" := PStr "h"]})))
           [Line "1"; Line "t"; Line "+15551234567"] eq_refl).
Defined.



(** X8.  When the constructor returns, the attributes api_id, api_hash and
    bot_token are assigned and are the values of the record that is both
    [as_dict] and the content of the file; phone_number is assigned exactly
    when it was requested. *)
Theorem returned_run_exposes_the_saved_record rb ra rh rp fu file keys st :
  Config rb ra rh rp fu file keys = (Return tt, st) ->
  exists a h b,
    api_id (self st) = Some a /\ api_hash (self st) = Some h /\
    bot_token (self st) = Some b /\
    as_dict (self st) = PDict (record_of a h b) /\
    config_file st = Some (Json (PDict (record_of a h b))) /\
    (if rp then is_Some (phone_number (self st)) else phone_number (self st) = None).
Proof. apply run_returned. Qed.

Lemma returned_run_exposes_the_saved_record_witness :
  exists a h b,
    Some (PInt 1) = Some a /\ Some (PStr "h") = Some h /\ Some (PStr "t") = Some b /\
    PDict (record_of (PInt 1) (PStr "h") (PStr "t")) = PDict (record_of a h b) /\
    Some (Json (PDict (record_of (PInt 1) (PStr "h") (PStr "t"))))
    = Some (Json (PDict (record_of a h b))) /\
    is_Some (Some (PStr "+15551234567")).
Proof.
  apply (returned_run_exposes_the_saved_record true true true true false None
           [Line "1"; Line "h"; Line "t"; Line "+15551234567"]
           (mkState (mkObject (PDict (record_of (PInt 1) (PStr "h") (PStr "t")))
                       (Some (PInt 1)) (Some (PStr "h")) (Some (PStr "t"))
                       (Some (PStr "+15551234567")))
              (Some (Json (PDict (record_of (PInt 1) (PStr "h") (PStr "t"))))) []
              [Printed tip; Prompted "api_id"; Printed tip; Prompted "api_hash";
               Prompted "bot_token"; Prompted "phone_number";
               Wrote (PDict (record_of (PInt 1) (PStr "h") (PStr "t")))])).
  vm_compute. reflexivity.
Defined.



(** X10.  A loaded value that is a JSON string or array and holds the name
    of the field (as a substring, as an element) passes the membership
    test; the subscript that follows raises [TypeError], without a prompt. *)
Theorem container_holding_the_key_raises_TypeError f st :
  (forall d, as_dict (self st) <> PDict d) ->
  py_contains (key_of f) (as_dict (self st)) st = (Return true, st) ->
  getter_of f false st = (Raise TypeError, st).
Proof.
  intros N C. rewrite getter_unfold, C. cbn [andb negb].
  destruct (as_dict (self st)); try reflexivity. by destruct (N d).
Qed.

Lemma container_holding_the_key_raises_TypeError_witness :
  getter_of Bot_token false
    (after_load (Some (Json (PList [PInt 1; PStr "bot_token"]))) [Line "t"])
  = (Raise TypeError,
     after_load (Some (Json (PList [PInt 1; PStr "bot_token"]))) [Line "t"]).
Proof.
  apply (container_holding_the_key_raises_TypeError Bot_token
           (after_load (Some (Json (PList [PInt 1; PStr "bot_token"]))) [Line "t"])).
  - intros d. discriminate.
  - reflexivity.
Defined.

(** X11.  After a load step that did not raise, a line for the API ID that
    is all digits for [str.isdigit] but holds a digit that is not decimal
    passes the validator, and [int] raises [ValueError]: the run ends
    there, uncaught, with nothing assigned and nothing written. *)
Theorem non_decimal_digit_raises_ValueError rb rh rp fu file
    (d : gmap string pyval) t rest :
  load_exn file = None ->
  loaded file = PDict d ->
  fu = true \/ d !! "api_id" = None ->
  Text.isdigit t = true ->
  Text.all_chars Text.isdecimal_char t = false ->
  Config rb true rh rp fu file (Line t :: rest)
  = (Raise ValueError,
     mkState (mkObject (PDict d) None None None None) file rest
       [Printed tip; Prompted "api_id"]).
Proof. apply superscript_run. Qed.

Lemma non_decimal_digit_raises_ValueError_witness :
  Config true true true false false None
    (Line (String "049" (String "178" EmptyString)) :: [Line "h"])
  = (Raise ValueError,
     mkState (mkObject (PDict ∅) None None None None) None [Line "h"]
       [Printed tip; Prompted "api_id"]).
Proof.
  apply (non_decimal_digit_raises_ValueError true true false false None ∅
           (String "049" (String "178" EmptyString)) [Line "h"]).
  - reflexivity.
  - reflexivity.
  - right. reflexivity.
  - reflexivity.
  - reflexivity.
Defined.

(** X12.  The Pyrogram example: when it gets the three arguments it reads,
    they are the attributes of the object and the values of the file the
    constructor wrote; and whatever else happens, the example does not fail
    on a missing attribute. *)
Theorem pyrogram_example_reads_what_the_file_holds file keys :
  match pyrogram_example (start file keys) with
  | (Return (a, h, b), st) =>
      Config true true true false false file keys = (Return tt, st) /\
      api_id (self st) = Some a /\ api_hash (self st) = Some h /\
      bot_token (self st) = Some b /\
      config_file st = Some (Json (PDict (record_of a h b)))
  | (Raise e, _) => forall name, e <> AttributeError name
  | (Exit _, _) | (Blocked, _) => True
  end.
Proof. apply example_outcome. Qed.

(** X13.  The python-telegram-bot example requests the bot token only: its
    constructor call never returns, so [config.bot_token] is never read,
    and the file is never written. *)
Theorem bot_example_never_gets_its_token file keys :
  returned (python_telegram_bot_example (start file keys)).1 = false /\
  config_file (python_telegram_bot_example (start file keys)).2 = file.
Proof. apply bot_example_outcome. Qed.

(** X14.  What a run never does: it never raises [KeyError], since every
    subscript follows a membership test that succeeded; it never lets the
    [JSONDecodeError] of the load step out; with the three saved fields
    requested it never raises [AttributeError]; and when it exits, the
    status is 0. *)
Theorem run_never_raises_KeyError rb ra rh rp fu file keys :
  match (Config rb ra rh rp fu file keys).1 with
  | Raise e =>
      (forall k, e <> KeyError k) /\
      e <> JSONDecodeError /\
      (ra && rh && rb = true -> forall name, e <> AttributeError name)
  | Exit c => c = 0
  | Return _ | Blocked => True
  end.
Proof.
  pose proof (run_raises rb ra rh rp fu file keys) as O.
  pose proof (fun name => run_with_saved_fields rp fu file keys name) as NA.
  destruct ra, rh, rb;
    destruct (Config _ _ _ rp fu file keys).1 as [x|e|c|]; try done;
    (assert (K : (forall k, e <> KeyError k) /\ e <> JSONDecodeError);
     [destruct O as [[->|[->| ->]]|[L|[name ->]]]; try (by split);
      apply load_exn_range in L as [->|[->|[->| ->]]]; by split|]);
    destruct K as [K1 K2]; (split; [done|]); (split; [done|]);
    try discriminate; intros _ name ->; by apply (NA name).
Qed.

(** X15.  A getter assigns no attribute and leaves the file alone, whatever
    the loaded value is; on the terminal it shows nothing, or the hint and
    the prompt of its field followed by error messages of that field. *)
Theorem getter_only_reads_and_asks f fu st :
  let st' := (getter_of f fu st).2 in
  self st' = self st /\ config_file st' = config_file st /\
  (trace st' = trace st \/
   exists n, trace st' = trace st ++ hint_of f ++
                         Prompted (key_of f) :: replicate n (Rejected (error_of f))).
Proof.
  cbv zeta. destruct (getter_of f fu st) as [r st'] eqn:E. cbn [snd].
  apply getter_effects in E as [->|E]; [by repeat split; left|].
  apply ask_effects in E as (? & ? & n & ?). repeat split; [done..|]. right. by exists n.
Qed.
